(** * utils/test_runners.py: test execution utilities and report rendering

    A shallow embedding of [TestRunner], [ContinuousTestRunner] and
    [create_test_report].  Python dictionaries are finite maps with string
    keys, the process environment is a finite map from names to values, and
    everything the code does to the outside world (spawning the child
    process, printing, writing the report file) goes through an explicit
    [world] that is threaded by a small state-and-exception monad. *)

From Stdlib Require Import ZArith List Ascii String DecimalString.
From stdpp Require Import base option list strings gmap.

Local Open Scope string_scope.
Local Open Scope Z_scope.

(* stdpp stops [simpl] from unfolding string concatenation; the proofs
   below compute with literal strings. *)
#[local] Arguments String.append !s1 s2 : simpl nomatch.

(** ** Python values and the Python built-ins the module relies on *)

Module Py.

(** The values that can sit in a [Dict[str, Any]] of this module. *)
Inductive value :=
| VNone
| VBool (b : bool)
| VInt (n : Z)
| VStr (s : string).

#[global] Instance value_eq_dec : EqDecision value.
Proof. solve_decision. Defined.

(** [str(n)] for an [int]. *)
Definition str_of_int (n : Z) : string := NilZero.string_of_int (Z.to_int n).

(** [str(v)], which is also what [format(v, "")] and an f-string field give. *)
Definition str (v : value) : string :=
  match v with
  | VNone => "None"
  | VBool true => "True"
  | VBool false => "False"
  | VInt n => str_of_int n
  | VStr s => s
  end.

(** Truth value testing ([if v], [v or d]). *)
Definition truthy (v : value) : bool :=
  match v with
  | VNone => false
  | VBool b => b
  | VInt n => negb (n =? 0)
  | VStr s => negb (String.eqb s "")
  end.

(** [d.get(k)]: [None] when the key is missing. *)
Definition get (d : gmap string value) (k : string) : value :=
  default VNone (d !! k).

(** [d.get(k, dflt)]. *)
Definition get_or (d : gmap string value) (k : string) (dflt : value) : value :=
  default dflt (d !! k).

(** [sep.join(parts)]. *)
Definition join (sep : string) (parts : list string) : string :=
  String.concat sep parts.

(** [s.endswith(suffix)]: some tail of [s] is [suffix]. *)
Fixpoint endswith (s suffix : string) : bool :=
  String.eqb s suffix
  || match s with
     | EmptyString => false
     | String _ s' => endswith s' suffix
     end.

(** [s.replace("*", "")]: every star is deleted. *)
Fixpoint remove_stars (s : string) : string :=
  match s with
  | EmptyString => EmptyString
  | String c s' =>
      if Ascii.eqb c "*" then remove_stars s' else String c (remove_stars s')
  end.

(** [any(f(x) for x in xs)]. *)
Definition any {A} (f : A -> bool) (xs : list A) : bool := existsb f xs.

(** Exceptions.  [except Exception] catches every class below
    [Exception]; [KeyboardInterrupt] and [SystemExit] derive from
    [BaseException] only and pass through such a handler. *)
Inductive exn :=
| OSError (errno : Z) (strerror : string) (filename : string)
| KeyError (key : string)
| OtherException (message : string)
| KeyboardInterrupt
| SystemExit (code : Z).

Definition is_Exception (e : exn) : bool :=
  match e with
  | OSError _ _ _ | KeyError _ | OtherException _ => true
  | KeyboardInterrupt | SystemExit _ => false
  end.

(** [str(e)].  An [OSError] carrying an errno, as raised when a child
    process cannot be spawned ([FileNotFoundError], [PermissionError]),
    prints as "[Errno n] strerror: 'filename'". *)
Definition str_exn (e : exn) : string :=
  match e with
  | OSError n msg file =>
      "[Errno " ++ str_of_int n ++ "] " ++ msg ++ ": '" ++ file ++ "'"
  | KeyError k => "'" ++ k ++ "'"
  | OtherException m => m
  | KeyboardInterrupt => ""
  | SystemExit c => str_of_int c
  end.

End Py.

Import Py.

(** ** The outside world *)

(** What [subprocess.run(cmd, cwd=..., capture_output=True, text=True,
    env=...)] can do.  [Completed]: the child ran to completion and the
    call returned its exit code and decoded output.  [Failed]: the call
    raised and no exit code of a child was seen (the command could not be
    started, or the wait was interrupted).  [Exited]: the child was started
    and exited with [returncode], but the call raised all the same, as
    [text=True] does when the captured output cannot be decoded. *)
Inductive proc_outcome :=
| Completed (returncode : Z) (stdout stderr : string)
| Failed (e : exn)
| Exited (returncode : Z) (e : exn).

(** One call of [subprocess.run], as the operating system sees it. *)
Record proc_call := ProcCall {
  call_cmd : list string;
  call_cwd : string;
  call_env : gmap string string
}.

(** File-system events delivered by the watchdog observer. *)
Record fs_event := FsEvent {
  src_path : string;
  is_directory : bool
}.

(** A child process as the operating system plays it back: how it ends, and
    which file-system events fire under the watched directory while it is
    in flight. *)
Record proc_run := ProcRun {
  run_outcome : proc_outcome;
  run_fired : list fs_event
}.

(** What the operating system sees of the child processes: a call of
    [subprocess.run] being entered, and the same call being left, with a
    completed process or with an exception. *)
Inductive trace_item :=
| ProcStart (c : proc_call)
| ProcExit (o : proc_outcome).

Record world := World {
  sys_executable : string;              (* sys.executable, a str *)
  environ : gmap string string;         (* os.environ *)
  getcwd : string;                      (* Path.cwd() *)
  spawn : nat -> proc_call -> proc_run; (* the n-th child process *)
  trace : list trace_item;              (* child processes started and ended *)
  console : list string;                (* lines printed so far *)
  files : gmap string string;           (* regular files and their contents *)
  writable : string -> bool;            (* can open(path, "w") succeed? *)
  watchdog_installed : bool;            (* does import watchdog succeed? *)
  queue : list fs_event                 (* the observer's pending events *)
}.

Definition set_trace (t : list trace_item) (w : world) : world :=
  World (sys_executable w) (environ w) (getcwd w) (spawn w) t (console w)
        (files w) (writable w) (watchdog_installed w) (queue w).

Definition set_console (c : list string) (w : world) : world :=
  World (sys_executable w) (environ w) (getcwd w) (spawn w) (trace w) c
        (files w) (writable w) (watchdog_installed w) (queue w).

Definition set_files (f : gmap string string) (w : world) : world :=
  World (sys_executable w) (environ w) (getcwd w) (spawn w) (trace w)
        (console w) f (writable w) (watchdog_installed w) (queue w).

Definition set_queue (q : list fs_event) (w : world) : world :=
  World (sys_executable w) (environ w) (getcwd w) (spawn w) (trace w)
        (console w) (files w) (writable w) (watchdog_installed w) q.

(** ** Computations: state passing with Python exceptions *)

Inductive result (A : Type) :=
| Return (a : A)
| Raise (e : exn).
Arguments Return {A} a.
Arguments Raise {A} e.

Definition M (A : Type) : Type := world -> result A * world.

Definition ret {A} (a : A) : M A := fun w => (Return a, w).
Definition raise {A} (e : exn) : M A := fun w => (Raise e, w).

Definition bind {A B} (m : M A) (k : A -> M B) : M B :=
  fun w =>
    match m w with
    | (Return a, w') => k a w'
    | (Raise e, w') => (Raise e, w')
    end.

(** [try: body / except Exception as e: handler(e)]. *)
Definition try_except {A} (body : M A) (handler : exn -> M A) : M A :=
  fun w =>
    match body w with
    | (Return a, w') => (Return a, w')
    | (Raise e, w') =>
        if is_Exception e then handler e w' else (Raise e, w')
    end.

#[global] Instance M_ret : MRet M := @ret.
#[global] Instance M_bind : MBind M := fun A B k m => bind m k.

Definition gets {A} (f : world -> A) : M A := fun w => (Return (f w), w).
Definition modify (f : world -> world) : M unit := fun w => (Return tt, f w).

(** [print(line)]. *)
Definition print (line : string) : M unit :=
  modify (fun w => set_console (console w ++ [line]) w).

(** Number of calls of [subprocess.run] so far. *)
Definition is_start (i : trace_item) : bool :=
  match i with ProcStart _ => true | ProcExit _ => false end.

Definition started (t : list trace_item) : nat :=
  length (List.filter is_start t).

(** [subprocess.run(cmd, cwd=cwd, capture_output=True, text=True, env=env)]:
    blocks until the child is gone.  The events that fire meanwhile land on
    the observer's queue. *)
Definition subprocess_run (cmd : list string) (cwd : string)
    (env : gmap string string) : M (Z * string * string) :=
  fun w =>
    let c := ProcCall cmd cwd env in
    let r := spawn w (started (trace w)) c in
    let w' := set_queue (queue w ++ run_fired r)
                (set_trace (trace w ++ [ProcStart c; ProcExit (run_outcome r)]) w) in
    match run_outcome r with
    | Completed rc out err => (Return (rc, out, err), w')
    | Failed e => (Raise e, w')
    | Exited _ e => (Raise e, w')
    end.

(** [d[k]]. *)
Definition getitem (d : gmap string value) (k : string) : M value :=
  match d !! k with
  | Some v => mret v
  | None => raise (KeyError k)
  end.

(** ** class TestRunner *)

Record TestRunner := mkTestRunner {
  base_dir : string;
  results : gmap string value
}.

(** [TestRunner.__init__(self, base_dir=None)]. *)
Definition TestRunner_init (dir : option string) : M TestRunner :=
  match dir with
  | Some d =>
      if truthy (VStr d) then mret (mkTestRunner d ∅)
      else cwd ← gets getcwd; mret (mkTestRunner cwd ∅)
  | None => cwd ← gets getcwd; mret (mkTestRunner cwd ∅)
  end.

(** [env or os.environ.copy()]: a missing or empty mapping is falsy. *)
Definition env_or_environ (env : option (gmap string string)) : M (gmap string string) :=
  match env with
  | Some e => if bool_decide (e = ∅) then gets environ else mret e
  | None => gets environ
  end.

(** [[sys.executable, "-m", "pytest"] + args]. *)
Definition pytest_cmd (exe : string) (args : list string) : list string :=
  [exe; "-m"; "pytest"] ++ args.

(** [TestRunner._run_pytest(self, args, env=None)]. *)
Definition _run_pytest (self : TestRunner) (args : list string)
    (env : option (gmap string string)) : M (gmap string value) :=
  exe ← gets sys_executable;
  let cmd := pytest_cmd exe args in
  try_except
    (child_env ← env_or_environ env;
     '(returncode, stdout, stderr) ← subprocess_run cmd (base_dir self) child_env;
     mret (<["success" := VBool (returncode =? 0)]>
          (<["returncode" := VInt returncode]>
          (<["stdout" := VStr stdout]>
          (<["stderr" := VStr stderr]>
          (<["command" := VStr (join " " cmd)]> ∅))))))
    (fun e =>
     mret (<["success" := VBool false]>
          (<["error" := VStr (str_exn e)]>
          (<["command" := VStr (join " " cmd)]> ∅)))).

Definition run_smoke_tests (self : TestRunner) : M (gmap string value) :=
  _run_pytest self ["-m"; "smoke"; "-v"] None.

Definition run_api_tests (self : TestRunner) : M (gmap string value) :=
  _run_pytest self ["-m"; "api"; "-v"] None.

Definition run_ui_tests (self : TestRunner) : M (gmap string value) :=
  _run_pytest self ["-m"; "ui"; "-v"] None.

Definition run_integration_tests (self : TestRunner) : M (gmap string value) :=
  _run_pytest self ["-m"; "integration"; "-v"] None.

Definition run_performance_tests (self : TestRunner) : M (gmap string value) :=
  _run_pytest self ["-m"; "slow"; "-v"; "--tb=short"] None.

(** [workers] defaults to 4 at the call site. *)
Definition run_parallel_tests (self : TestRunner) (workers : Z) : M (gmap string value) :=
  _run_pytest self ["-n"; str_of_int workers; "-v"] None.

(** [min_coverage] defaults to 80 at the call site. *)
Definition coverage_args (min_coverage : Z) : list string :=
  ["--cov=src";
   "--cov-report=html";
   "--cov-report=term-missing";
   "--cov-fail-under=" ++ str_of_int min_coverage;
   "-v"].

Definition run_with_coverage (self : TestRunner) (min_coverage : Z) : M (gmap string value) :=
  let args := coverage_args min_coverage in
  _run_pytest self args None.

Definition run_browser_specific_tests (self : TestRunner) (browser : string)
    : M (gmap string value) :=
  env ← gets environ;
  let env := <["PLAYWRIGHT_BROWSER" := browser]> env in
  _run_pytest self ["-v"] (Some env).

(** ** class ContinuousTestRunner *)

Record ContinuousTestRunner := mkContinuousTestRunner {
  test_dir : string;
  runner : TestRunner
}.

(** [ContinuousTestRunner.__init__(self, test_dir="tests")]. *)
Definition ContinuousTestRunner_init (dir : string) : M ContinuousTestRunner :=
  r ← TestRunner_init None;
  mret (mkContinuousTestRunner dir r).

(** [patterns or ["*.py"]]. *)
Definition patterns_or_default (patterns : option (list string)) : list string :=
  match patterns with
  | Some (p :: ps) => p :: ps
  | Some [] | None => ["*.py"]
  end.

(** The condition of [TestEventHandler.on_modified]. *)
Definition triggers (patterns : list string) (event : fs_event) : bool :=
  negb (is_directory event)
  && any (fun p => endswith (src_path event) (remove_stars p)) patterns.

(** [TestEventHandler.on_modified(self, event)]; [patterns] is the variable
    of the enclosing [watch_and_run] that the handler closes over. *)
Definition on_modified (patterns : list string) (self_runner : TestRunner)
    (event : fs_event) : M unit :=
  if triggers patterns event then
    print ("File changed: " ++ src_path event);;
    print "Running tests...";;
    result ← run_smoke_tests self_runner;
    success ← getitem result "success";
    if truthy success then
      print "✅ Tests passed!"
    else
      print "❌ Tests failed!";;
      print (str (get_or result "stderr" (VStr "")))
  else mret tt.

(** The observer thread: it takes the pending events off its queue one at
    a time and calls the handler on each, in the same thread, so the next
    event is looked at only when the handler has returned.  [n] bounds the
    number of events dispatched before the session is interrupted.  An
    exception that escapes the handler ends the thread.  The events that
    were dispatched are returned. *)
Fixpoint dispatch_events (handler : fs_event -> M unit) (n : nat)
    : M (list fs_event) :=
  fun w =>
    match n with
    | O => (Return [], w)
    | S n' =>
        match queue w with
        | [] => (Return [], w)
        | e :: q =>
            match handler e (set_queue q w) with
            | (Return _, w') =>
                match dispatch_events handler n' w' with
                | (Return es, w'') => (Return (e :: es), w'')
                | (Raise x, w'') => (Raise x, w'')
                end
            | (Raise _, w') => (Return [e], w')
            end
        end
    end.

(** [ContinuousTestRunner.watch_and_run(self, patterns=None)], interrupted
    from the keyboard after the observer dispatched at most [n] events. *)
Definition watch_and_run (self : ContinuousTestRunner)
    (patterns : option (list string)) (n : nat) : M (list fs_event) :=
  installed ← gets watchdog_installed;
  if negb installed then
    print "watchdog package required for file watching. Install with: pip install watchdog";;
    mret []
  else
    let patterns := patterns_or_default patterns in
    let event_handler := on_modified patterns (runner self) in
    print ("Watching " ++ test_dir self ++ " for changes... Press Ctrl+C to stop.");;
    handled ← dispatch_events event_handler n;
    print (String "010" "Stopped watching for changes.");;
    mret handled.

(** ** create_test_report *)

(** [str.format] with keyword arguments, for templates whose replacement fields are
    plain names: [{{] and [}}] stand for a brace, [{name}] is replaced by
    [str(kwargs[name])].  [field] holds the name being read, if any. *)
Fixpoint format_from (kwargs : list (string * value)) (field : option string)
    (template : string) : result string :=
  match field, template with
  | None, EmptyString => Return EmptyString
  | None, String "{" (String "{" rest) =>
      match format_from kwargs None rest with
      | Return out => Return (String "{" out)
      | Raise e => Raise e
      end
  | None, String "}" (String "}" rest) =>
      match format_from kwargs None rest with
      | Return out => Return (String "}" out)
      | Raise e => Raise e
      end
  | None, String "{" rest => format_from kwargs (Some EmptyString) rest
  | None, String "}" _ =>
      Raise (OtherException "Single '}' encountered in format string")
  | None, String c rest =>
      match format_from kwargs None rest with
      | Return out => Return (String c out)
      | Raise e => Raise e
      end
  | Some name, EmptyString =>
      Raise (OtherException "expected '}' before end of string")
  | Some name, String "}" rest =>
      match List.find (fun kv => String.eqb (fst kv) name) kwargs with
      | Some kv =>
          match format_from kwargs None rest with
          | Return out => Return (str (snd kv) ++ out)
          | Raise e => Raise e
          end
      | None => Raise (KeyError name)
      end
  | Some name, String c rest =>
      format_from kwargs (Some (name ++ String c EmptyString)) rest
  end.

Definition format (template : string) (kwargs : list (string * value)) : result string :=
  format_from kwargs None template.

(** The double quote character. *)
Definition dq : string := String "034" EmptyString.

Definition html_template : string :=
"
    <!DOCTYPE html>
    <html>
    <head>
        <title>Test Report</title>
        <style>
            body {{ font-family: Arial, sans-serif; margin: 20px; }}
            .success {{ color: green; }}
            .failure {{ color: red; }}
            .info {{ color: blue; }}
            pre {{ background: #f5f5f5; padding: 10px; border-radius: 5px; }}
        </style>
    </head>
    <body>
        <h1>Test Execution Report</h1>
        <h2>Summary</h2>
        <p class=" ++ dq ++ "{status_class}" ++ dq ++ ">Status: {status}</p>
        <p>Return Code: {returncode}</p>
        <p>Command: <code>{command}</code></p>
        
        <h2>Output</h2>
        <pre>{stdout}</pre>
        
        {stderr_section}
    </body>
    </html>
    ".

(** The f-string that builds the "Errors" section. *)
Definition errors_section (stderr : value) : string :=
"
        <h2>Errors</h2>
        <pre class=" ++ dq ++ "failure" ++ dq ++ ">" ++ str stderr ++ "</pre>
        ".

(** [stderr_section], as computed before the template is filled in. *)
Definition stderr_section (results : gmap string value) : M string :=
  if truthy (get results "stderr") then
    stderr ← getitem results "stderr";
    mret (errors_section stderr)
  else mret "".

Definition lift {A} (r : result A) : M A := fun w => (r, w).

(** Everything up to and including the call of [html_template.format]. *)
Definition html_content (results : gmap string value) : M string :=
  let status := if truthy (get results "success") then "PASSED" else "FAILED" in
  let status_class := if truthy (get results "success") then "success" else "failure" in
  stderr_section ← stderr_section results;
  lift (format html_template
    [("status", VStr status);
     ("status_class", VStr status_class);
     ("returncode", get_or results "returncode" (VStr "N/A"));
     ("command", get_or results "command" (VStr "N/A"));
     ("stdout", get_or results "stdout" (VStr "No output"));
     ("stderr_section", VStr stderr_section)]).

(** [with open(output_file, "w") as f: f.write(content)]. *)
Definition write_file (output_file content : string) : M unit :=
  fun w =>
    if writable w output_file then
      (Return tt, set_files (<[output_file := content]> (files w)) w)
    else (Raise (OSError 13 "Permission denied" output_file), w).

(** [create_test_report(results, output_file="test-report.html")]. *)
Definition create_test_report (results : gmap string value) (output_file : string)
    : M unit :=
  content ← html_content results;
  write_file output_file content;;
  print ("Test report saved to: " ++ output_file).

(** The report with its six replacement fields filled in. *)
Definition document (status_class status returncode command stdout
    stderr_section : string) : string :=
"
    <!DOCTYPE html>
    <html>
    <head>
        <title>Test Report</title>
        <style>
            body { font-family: Arial, sans-serif; margin: 20px; }
            .success { color: green; }
            .failure { color: red; }
            .info { color: blue; }
            pre { background: #f5f5f5; padding: 10px; border-radius: 5px; }
        </style>
    </head>
    <body>
        <h1>Test Execution Report</h1>
        <h2>Summary</h2>
        <p class=" ++ dq ++ status_class ++ dq ++ ">Status: " ++ status ++ "</p>
        <p>Return Code: " ++ returncode ++ "</p>
        <p>Command: <code>" ++ command ++ "</code></p>
        
        <h2>Output</h2>
        <pre>" ++ stdout ++ "</pre>
        
        " ++ stderr_section ++ "
    </body>
    </html>
    ".

(** ** Reference notions of the specification

    What the specification means by escaping, by re-parsing a report and
    by a glob pattern; the code above is compared with these. *)

Module Reference.

(** HTML escaping of text content: [&], [<] and [>] become entities. *)
Fixpoint html_escape (s : string) : string :=
  match s with
  | EmptyString => EmptyString
  | String c s' =>
      if Ascii.eqb c "&" then "&amp;" ++ html_escape s'
      else if Ascii.eqb c "<" then "&lt;" ++ html_escape s'
      else if Ascii.eqb c ">" then "&gt;" ++ html_escape s'
      else String c (html_escape s')
  end.

(** What an HTML parser makes of text content: the three entities are
    decoded, everything else is kept. *)
Fixpoint html_unescape (s : string) : string :=
  match s with
  | EmptyString => EmptyString
  | String "&" (String "a" (String "m" (String "p" (String ";" s')))) =>
      String "&" (html_unescape s')
  | String "&" (String "l" (String "t" (String ";" s'))) =>
      String "<" (html_unescape s')
  | String "&" (String "g" (String "t" (String ";" s'))) =>
      String ">" (html_unescape s')
  | String c s' => String c (html_unescape s')
  end.

(** [strip_prefix p s] is what follows [p] at the start of [s]. *)
Fixpoint strip_prefix (p s : string) : option string :=
  match p, s with
  | EmptyString, _ => Some s
  | String _ _, EmptyString => None
  | String a p', String b s' =>
      if Ascii.eqb a b then strip_prefix p' s' else None
  end.

(** [split_at_first needle s] cuts [s] around the first occurrence of
    [needle]. *)
Fixpoint split_at_first (needle s : string) : option (string * string) :=
  match strip_prefix needle s with
  | Some after => Some (EmptyString, after)
  | None =>
      match s with
      | EmptyString => None
      | String c s' =>
          match split_at_first needle s' with
          | Some (before, after) => Some (String c before, after)
          | None => None
          end
      end
  end.

(** Re-parsing a report: the text content of its output element, which is
    what stands between the first [<pre>] tag and the [</pre>] tag that
    closes it, with entities decoded. *)
Definition output_text (doc : string) : option string :=
  match split_at_first "<pre>" doc with
  | Some (_, after) =>
      match split_at_first "</pre>" after with
      | Some (content, _) => Some (html_unescape content)
      | None => None
      end
  | None => None
  end.

(** The opening tag of the element that holds the captured errors. *)
Definition failure_tag : string :=
  "<pre class=" ++ dq ++ "failure" ++ dq ++ ">".

(** The text content of the errors element of a report. *)
Definition errors_text (doc : string) : option string :=
  match split_at_first failure_tag doc with
  | Some (_, after) =>
      match split_at_first "</pre>" after with
      | Some (content, _) => Some (html_unescape content)
      | None => None
      end
  | None => None
  end.

(** Does the text contain one of [<], [>], [&]? *)
Fixpoint has_special (s : string) : bool :=
  match s with
  | EmptyString => false
  | String c s' =>
      Ascii.eqb c "&" || Ascii.eqb c "<" || Ascii.eqb c ">" || has_special s'
  end.

(** Shell-style glob matching of a whole path: [*] matches any run of
    characters, [?] matches one character, every other character matches
    itself. *)
Fixpoint glob_match (pattern path : string) : bool :=
  match pattern with
  | EmptyString => String.eqb path EmptyString
  | String "*" pattern' =>
      (fix star (s : string) : bool :=
         glob_match pattern' s
         || match s with
            | EmptyString => false
            | String _ s' => star s'
            end) path
  | String "?" pattern' =>
      match path with
      | EmptyString => false
      | String _ path' => glob_match pattern' path'
      end
  | String c pattern' =>
      match path with
      | EmptyString => false
      | String d path' => Ascii.eqb c d && glob_match pattern' path'
      end
  end.

(** A pattern without wildcards. *)
Fixpoint literal (s : string) : bool :=
  match s with
  | EmptyString => true
  | String c s' => negb (Ascii.eqb c "*") && negb (Ascii.eqb c "?") && literal s'
  end.

End Reference.

(** ** Vocabulary of the statements *)

(** The environment the child process gets: [env or os.environ.copy()]. *)
Definition child_env (env : option (gmap string string)) (w : world)
    : gmap string string :=
  match env with
  | Some e => if bool_decide (e = ∅) then environ w else e
  | None => environ w
  end.

(** The call that [_run_pytest] makes in world [w]. *)
Definition pytest_call (self : TestRunner) (args : list string)
    (env : option (gmap string string)) (w : world) : proc_call :=
  ProcCall (pytest_cmd (sys_executable w) args) (base_dir self) (child_env env w).

(** How the child process of that call ends. *)
Definition pytest_outcome (self : TestRunner) (args : list string)
    (env : option (gmap string string)) (w : world) : proc_outcome :=
  run_outcome (spawn w (started (trace w)) (pytest_call self args env w)).

(** The world once that call has returned. *)
Definition after_pytest (self : TestRunner) (args : list string)
    (env : option (gmap string string)) (w : world) : world :=
  let c := pytest_call self args env w in
  let r := spawn w (started (trace w)) c in
  set_queue (queue w ++ run_fired r)
    (set_trace (trace w ++ [ProcStart c; ProcExit (run_outcome r)]) w).

(** The two shapes of result dictionary. *)
Definition completed_result (cmd : list string) (rc : Z) (out err : string)
    : gmap string value :=
  <["success" := VBool (rc =? 0)]>
  (<["returncode" := VInt rc]>
  (<["stdout" := VStr out]>
  (<["stderr" := VStr err]>
  (<["command" := VStr (join " " cmd)]> ∅)))).

Definition failed_result (cmd : list string) (e : exn) : gmap string value :=
  <["success" := VBool false]>
  (<["error" := VStr (str_exn e)]>
  (<["command" := VStr (join " " cmd)]> ∅)).

(** A trace in which child processes never overlap: every start is
    followed by the exit of that process before the next start. *)
Fixpoint serial_from (running : bool) (t : list trace_item) : bool :=
  match t with
  | [] => negb running
  | ProcStart _ :: t' => negb running && serial_from true t'
  | ProcExit _ :: t' => running && serial_from false t'
  end.

Definition serial (t : list trace_item) : bool := serial_from false t.

(** The arguments of the smoke profile. *)
Definition smoke_args : list string := ["-m"; "smoke"; "-v"].

(** Handling [event] starts one more child process. *)
Definition run_triggered (patterns : list string) (self_runner : TestRunner)
    (event : fs_event) (w : world) : Prop :=
  started (trace (snd (on_modified patterns self_runner event w)))
    = S (started (trace w)).

(** The path of a file, not a directory, ends with one of the patterns
    with its stars deleted. *)
Definition suffix_condition (patterns : list string) (event : fs_event) : Prop :=
  is_directory event = false
  /\ exists p, In p patterns /\ exists pre, src_path event = pre ++ remove_stars p.

(** The path of a file, not a directory, matches one of the patterns as a
    glob. *)
Definition glob_condition (patterns : list string) (event : fs_event) : Prop :=
  is_directory event = false
  /\ exists p, In p patterns /\ Reference.glob_match p (src_path event) = true.

(** [stderr_section] as a value: empty, or the "Errors" section. *)
Definition section_text (results : gmap string value) : string :=
  if truthy (get results "stderr")
  then errors_section (get results "stderr")
  else "".

(** The report of a result dictionary in closed form. *)
Definition report_of (results : gmap string value) : string :=
  document
    (if truthy (get results "success") then "success" else "failure")
    (if truthy (get results "success") then "PASSED" else "FAILED")
    (str (get_or results "returncode" (VStr "N/A")))
    (str (get_or results "command" (VStr "N/A")))
    (str (get_or results "stdout" (VStr "No output")))
    (section_text results).

(** [mismatch p s]: [p] and [s] differ at a position that both have, so
    [p] is not a prefix of [s] followed by anything. *)
Fixpoint mismatch (p s : string) : bool :=
  match p, s with
  | String a p', String b s' => if Ascii.eqb a b then mismatch p' s' else true
  | _, _ => false
  end.

(** [clean needle s]: no occurrence of [needle] starts inside [s], whatever
    follows [s]. *)
Fixpoint clean (needle s : string) : bool :=
  match s with
  | EmptyString => true
  | String _ s' => mismatch needle s && clean needle s'
  end.

(** [split_inside needle s]: the first occurrence of [needle] lies inside
    [s], whatever follows [s]. *)
Fixpoint split_inside (needle s : string) : option (string * string) :=
  match Reference.strip_prefix needle s with
  | Some after => Some (EmptyString, after)
  | None =>
      match s with
      | EmptyString => None
      | String c s' =>
          if mismatch needle s then
            match split_inside needle s' with
            | Some (before, after) => Some (String c before, after)
            | None => None
            end
          else None
      end
  end.

(** ** Worlds used as concrete inputs *)

Definition ambient : gmap string string :=
  <["PATH" := "/usr/bin"]> (<["PLAYWRIGHT_BROWSER" := "chromium"]> ∅).

(** A world whose every child process ends as [o] and fires nothing. *)
Definition world_where (exe : string) (o : proc_outcome) : world :=
  World exe ambient "/repo" (fun _ _ => ProcRun o []) [] [] ∅
        (fun _ => true) true [].

(** The test tool exits with code 2. *)
Definition world_exit2 : world :=
  world_where "/usr/bin/python3" (Completed 2 "collected 0 items" "usage error").

(** The test tool passes. *)
Definition world_pass : world :=
  world_where "/usr/bin/python3" (Completed 0 "1 passed" "").

(** The interpreter path does not exist. *)
Definition world_missing : world :=
  world_where "/nonexistent/python"
    (Failed (OSError 2 "No such file or directory" "/nonexistent/python")).

Definition the_runner : TestRunner := mkTestRunner "/repo" ∅.

Definition the_watcher : ContinuousTestRunner :=
  mkContinuousTestRunner "tests" the_runner.

(** One change is pending; while the run it triggers is in flight, two
    more source files change. *)
Definition world_two_changes_in_flight : world :=
  World "/usr/bin/python3" ambient "/repo"
        (fun n _ =>
           match n with
           | O => ProcRun (Completed 0 "1 passed" "")
                    [FsEvent "tests/test_b.py" false; FsEvent "tests/test_c.py" false]
           | S _ => ProcRun (Completed 0 "1 passed" "") []
           end)
        [] [] ∅ (fun _ => true) true [FsEvent "tests/test_a.py" false].

(** A passing run with nothing captured. *)
Definition result_pass_empty : gmap string value :=
  <["success" := VBool true]>
  (<["returncode" := VInt 0]>
  (<["stdout" := VStr ""]>
  (<["stderr" := VStr ""]> ∅))).

(** A run whose captured output holds markup. *)
Definition result_with_markup : gmap string value :=
  completed_result ["/usr/bin/python3"; "-m"; "pytest"; "-v"] 1
    "assert page.content() == '</pre><h1>Welcome</h1>'" "1 failed".

(** A run whose captured output is plain text. *)
Definition result_plain : gmap string value :=
  completed_result ["/usr/bin/python3"; "-m"; "pytest"; "-v"] 1
    "1 failed, 2 passed" "AssertionError".

(** ** The script at the end of the module *)

(** The body of [if __name__ == "__main__":]. *)
Definition main : M unit :=
  runner ← TestRunner_init None;
  print "Running smoke tests...";;
  smoke_results ← run_smoke_tests runner;
  create_test_report smoke_results "smoke-test-report.html";;
  success ← getitem smoke_results "success";
  if truthy success then
    print "Running full test suite...";;
    full_results ← run_with_coverage runner 80;
    create_test_report full_results "full-test-report.html"
  else mret tt.

(** The call of [subprocess.run] comes back, with a process that ran or
    with an exception that [except Exception] catches. *)
Definition caught (o : proc_outcome) : bool :=
  match o with
  | Completed _ _ _ => true
  | Failed e | Exited _ e => is_Exception e
  end.

(** What [_run_pytest] returns for an outcome that comes back. *)
Definition result_of (cmd : list string) (o : proc_outcome) : gmap string value :=
  match o with
  | Completed rc out err => completed_result cmd rc out err
  | Failed e | Exited _ e => failed_result cmd e
  end.


(** The parts of the world that no function of the module changes. *)
Definition same_surroundings (w w' : world) : Prop :=
  sys_executable w' = sys_executable w
  /\ environ w' = environ w
  /\ getcwd w' = getcwd w
  /\ spawn w' = spawn w
  /\ writable w' = writable w
  /\ watchdog_installed w' = watchdog_installed w.

(** Is this trace item the start of the given call? *)
Definition starts_call (c : proc_call) (i : trace_item) : Prop :=
  match i with
  | ProcStart c' => c' = c
  | ProcExit _ => True
  end.

(** The run exited with code 0. *)
Definition passed (o : proc_outcome) : bool :=
  match o with
  | Completed rc _ _ => rc =? 0
  | Failed _ | Exited _ _ => false
  end.

(** * src/test_helpers.py: the API test helper *)

Module Helpers.

(** [str.lower()], on ASCII letters; every other character is kept. *)
Definition lower_char (c : ascii) : ascii :=
  let n := nat_of_ascii c in
  if ((65 <=? n) && (n <=? 90))%nat then ascii_of_nat (n + 32) else c.

Fixpoint lower (s : string) : string :=
  match s with
  | EmptyString => EmptyString
  | String c s' => String (lower_char c) (lower s')
  end.

(** [needle in s] for two strings. *)
Definition contains (s needle : string) : bool :=
  match Reference.split_at_first needle s with
  | Some _ => true
  | None => false
  end.

(** Decoded JSON.  Numbers are kept as integers: the helper never looks at
    the value of a number. *)
#[local] Set Warnings "-register-all".
Inductive json :=
| JNull
| JBool (b : bool)
| JNum (n : Z)
| JStr (s : string)
| JList (items : list json)
| JDict (entries : list (string * json)).

(** What [response.json()] does: the decoded body, a
    [json.JSONDecodeError], or some other exception. *)
Inductive json_outcome :=
| Decoded (data : json)
| JSONDecodeError
| JsonRaises (e : exn).

Record Response := mkResponse {
  status : Z;
  json_of : json_outcome;
  text : string
}.

(** The fields of [APIConfig] that the helper reads.  [retry_delay] is a
    float; sleeping is recorded as the factor it is multiplied with. *)
Record APIConfig := mkAPIConfig {
  retry_count : Z;
  headers : gmap string string
}.

(** The [headers] default of [APIConfig]. *)
Definition default_headers : gmap string string :=
  <["Accept" := "application/json"]>
  (<["Content-Type" := "application/json"]>
  (<["User-Agent" := "Playwright-Testing-Framework/0.1.0"]> ∅)).

(** A call [getattr(api_context, name)(url, **kwargs)]. *)
Record request := mkRequest {
  req_method : string;
  req_url : string;
  req_kwargs : list (string * value)
}.

Inductive request_outcome :=
| Responded (r : Response)
| RequestFailed (e : exn).

(** What the helper does to the outside: requests sent, and sleeps of
    [retry_delay * factor]. *)
Inductive net_event :=
| Sent (r : request)
| Slept (factor : Z).

(** The network: the answer to the n-th request, and what happened so
    far. *)
Record net := mkNet {
  serve : nat -> request -> request_outcome;
  events : list net_event
}.

Definition is_sent (ev : net_event) : bool :=
  match ev with Sent _ => true | Slept _ => false end.

Definition sent (evs : list net_event) : nat := length (List.filter is_sent evs).



Definition send (r : request) (s : net) : request_outcome * net :=
  (serve s (sent (events s)) r, mkNet (serve s) (events s ++ [Sent r])).

(** [time.sleep(self.config.retry_delay * factor)]. *)
Definition sleep (factor : Z) (s : net) : net :=
  mkNet (serve s) (events s ++ [Slept factor]).

(** [range(n)]. *)
Definition range (n : Z) : list Z := List.map Z.of_nat (seq 0 (Z.to_nat n)).

(** Reading a local variable that no assignment has reached. *)
Definition UnboundLocalError : exn :=
  OtherException "cannot access local variable 'response' where it is not associated with a value".

(** The loop of [make_request_with_retry] over the attempts that are left;
    [response] is the local variable of that name, unbound at first. *)
Fixpoint retry_loop (config : APIConfig) (r : request) (attempts : list Z)
    (response : option Response) (s : net) : result Response * net :=
  match attempts with
  | [] =>
      match response with
      | Some resp => (Return resp, s)
      | None => (Raise UnboundLocalError, s)
      end
  | attempt :: rest =>
      match send r s with
      | (Responded resp, s') =>
          if status resp <? 500 then (Return resp, s')
          else retry_loop config r rest (Some resp) s'
      | (RequestFailed e, s') =>
          if is_Exception e then
            if attempt =? retry_count config - 1 then (Raise e, s')
            else retry_loop config r rest response (sleep (attempt + 1) s')
          else (Raise e, s')
      end
  end.

(** [APITestHelper.make_request_with_retry(self, method, url, **kwargs)]. *)
Definition make_request_with_retry (config : APIConfig) (method url : string)
    (kwargs : list (string * value)) (s : net) : result Response * net :=
  retry_loop config (mkRequest (lower method) url kwargs)
    (range (retry_count config)) None s.

(** [field not in data] raises for a value that is no container. *)
Definition not_iterable : exn :=
  OtherException "argument of type is not iterable".

(** [field in data]. *)
Definition field_in (field : string) (data : json) : result bool :=
  match data with
  | JDict entries => Return (existsb (fun kv => String.eqb (fst kv) field) entries)
  | JList items =>
      Return (existsb (fun x => match x with
                                | JStr s => String.eqb s field
                                | _ => false
                                end) items)
  | JStr s => Return (contains s field)
  | JNull | JBool _ | JNum _ => Raise not_iterable
  end.

(** The [for field in expected_fields] loop. *)
Fixpoint check_fields (data : json) (expected_fields : list string) : result bool :=
  match expected_fields with
  | [] => Return true
  | field :: rest =>
      match field_in field data with
      | Return true => check_fields data rest
      | Return false => Return false
      | Raise e => Raise e
      end
  end.

(** [except (json.JSONDecodeError, KeyError, IndexError)]. *)
Definition schema_handler_catches (e : exn) : bool :=
  match e with
  | KeyError _ => true
  | _ => false
  end.

(** [APITestHelper.validate_response_schema(self, response, expected_fields)]. *)
Definition validate_response_schema (response : Response)
    (expected_fields : list string) : result bool :=
  match json_of response with
  | Decoded data =>
      let data :=
        match data with
        | JList (first :: _) => first
        | _ => data
        end in
      match check_fields data expected_fields with
      | Return b => Return b
      | Raise e => if schema_handler_catches e then Return false else Raise e
      end
  | JSONDecodeError => Return false
  | JsonRaises e => if schema_handler_catches e then Return false else Raise e
  end.



(** Decoded values that are no containers. *)
Definition scalar (data : json) : bool :=
  match data with
  | JNull | JBool _ | JNum _ => true
  | JStr _ | JList _ | JDict _ => false
  end.

(** A network that answers every request with the same outcome. *)
Definition net_always (o : request_outcome) : net := mkNet (fun _ _ => o) [].

(** A network that fails twice and then answers with status 200. *)
Definition net_flaky : net :=
  mkNet (fun n _ =>
           match n with
           | O | S O => RequestFailed (OtherException "connection reset")
           | _ => Responded (mkResponse 200 (Decoded (JDict [("id", JNum 1)])) "{}")
           end) [].

End Helpers.

(** * src/config.py: what the configuration makes of the CI variable *)

Module Config.

(** [os.getenv(name)]. *)
Definition getenv (environ : gmap string string) (name : string) : option string :=
  environ !! name.

(** Truth value of what [os.getenv] returns: [None] and the empty string
    are falsy. *)
Definition env_truthy (v : option string) : bool :=
  match v with
  | Some s => truthy (VStr s)
  | None => false
  end.

(** [BrowserConfig._get_browser_args(self)]. *)
Definition _get_browser_args (environ : gmap string string) : list string :=
  let args := [] in
  if env_truthy (getenv environ "CI") then
    (args ++ ["--no-sandbox";
              "--disable-dev-shm-usage";
              "--disable-gpu";
              "--disable-web-security";
              "--allow-running-insecure-content"])%list
  else args.

(** [EnvironmentConfig.is_ci]. *)
Definition is_ci (environ : gmap string string) : bool :=
  env_truthy (getenv environ "CI").

End Config.

(** * conftest.py: markers by file location *)

Module Conftest.

(** A collected test item: its path and the markers put on it. *)
Record item := mkItem {
  fspath : string;
  markers : list string
}.

(** [item.add_marker(marker)]. *)
Definition add_marker (marker : string) (it : item) : item :=
  mkItem (fspath it) (markers it ++ [marker]).

(** [pytest_collection_modifyitems(config, items)]: the items are changed
    in place; the list is returned here as it is left. *)
Definition pytest_collection_modifyitems (items : list item) : list item :=
  List.map (fun it =>
              if Helpers.contains (fspath it) "api" then add_marker "api" it
              else if Helpers.contains (fspath it) "ui" then add_marker "ui" it
              else it) items.

End Conftest.

(** * src/test_helpers.py: sequential performance measurement *)

Module Performance.

Section Timing.

(** Python floats and the float operations the helper uses are taken as
    they are: nothing is assumed about them. *)
Variable F : Type.
Variable fsub : F -> F -> F.          (* end_time - start_time *)
Variable fsum : list F -> F.          (* sum(response_times) *)
Variable fdiv : F -> nat -> F.        (* total / len(response_times) *)
Variable fmin : list F -> F.          (* min(response_times) *)
Variable fmax : list F -> F.          (* max(response_times) *)

(** The value of [stat(response_times) if response_times else 0]. *)
Inductive stat :=
| IntZero
| Float (x : F).

(** The dictionary that is returned; its keys are fixed. *)
Record measurements := mkMeasurements {
  total_requests : Z;
  successful_requests : Z;
  error_count : Z;
  average_response_time : stat;
  min_response_time : stat;
  max_response_time : stat;
  response_times : list F
}.

(** The clock and the function under measurement: what the n-th reading
    of [time.time()] gives, whether the n-th call of [request_func]
    raises, and how often each was used. *)
Record lab := mkLab {
  clock : nat -> F;
  call : nat -> option exn;
  readings : nat;
  calls : nat
}.

Definition time_time (s : lab) : F * lab :=
  (clock s (readings s), mkLab (clock s) (call s) (S (readings s)) (calls s)).

Definition request_func (s : lab) : option exn * lab :=
  (call s (calls s), mkLab (clock s) (call s) (readings s) (S (calls s))).

(** The [for _ in range(count)] loop with its two local variables. *)
Fixpoint sequential_loop (n : nat) (times : list F) (errors : Z) (s : lab)
    : result (list F * Z) * lab :=
  match n with
  | O => (Return (times, errors), s)
  | S n' =>
      let (start_time, s1) := time_time s in
      match request_func s1 with
      | (None, s2) =>
          let (end_time, s3) := time_time s2 in
          sequential_loop n' (times ++ [fsub end_time start_time]) errors s3
      | (Some e, s2) =>
          if is_Exception e then sequential_loop n' times (errors + 1) s2
          else (Raise e, s2)
      end
  end.

(** [PerformanceHelper._measure_sequential_requests(self, request_func, count)]. *)
Definition _measure_sequential_requests (count : Z) (s : lab)
    : result measurements * lab :=
  match sequential_loop (Z.to_nat count) [] 0 s with
  | (Return (times, errors), s') =>
      (Return
         (mkMeasurements count (count - errors) errors
            (match times with [] => IntZero | _ => Float (fdiv (fsum times) (length times)) end)
            (match times with [] => IntZero | _ => Float (fmin times) end)
            (match times with [] => IntZero | _ => Float (fmax times) end)
            times),
       s')
  | (Raise e, s') => (Raise e, s')
  end.

End Timing.

Arguments IntZero {F}.
Arguments Float {F} x.

(** A lab with a clock that counts its readings and a function that fails
    on every second call. *)
Definition lab_every_second_fails : lab Z :=
  mkLab Z (fun n => Z.of_nat n)
    (fun n => if Nat.even n then None else Some (OtherException "timeout")) 0 0.

End Performance.

(** The exit code of the child, when a child was started and seen to
    exit. *)
Definition exit_code (o : proc_outcome) : option Z :=
  match o with
  | Completed rc _ _ | Exited rc _ => Some rc
  | Failed _ => None
  end.

(** The test tool exits with code 0, but what it printed is not valid
    UTF-8, so [subprocess.run] raises a [UnicodeDecodeError]. *)
Definition world_undecodable : world :=
  world_where "/usr/bin/python3"
    (Exited 0 (OtherException
                 "'utf-8' codec can't decode byte 0xff in position 0: invalid start byte")).

(** Ctrl+C arrives while [subprocess.run] waits for the child. *)
Definition world_interrupted : world :=
  world_where "/usr/bin/python3" (Failed KeyboardInterrupt).

(** ** The watch session, step by step

    Two threads take part in a watch session.  The emitter reports
    file-system events at any time by putting them on the observer's
    queue.  The observer thread takes one event after the other off the
    queue and calls [on_modified] on it; inside the handler it is blocked
    in [subprocess.run] until the child process is gone, and only then
    does the handler print its verdict and return.  The handler is cut
    here at that blocking call, so that events can fire while a run is in
    flight. *)

Inductive observer_thread :=
| Idle                                  (* waiting for the next event *)
| InHandler (c : proc_call) (n : nat)   (* in on_modified, blocked in
                                           subprocess.run on its n-th child *)
| Dead.                                 (* ended by an exception *)

Record session := mkSession {
  session_world : world;
  thread : observer_thread
}.

Inductive step_label :=
| Fire (e : fs_event)   (* the emitter reports a change *)
| Dispatch              (* the observer, if idle, handles the next event *)
| ChildExit.            (* the child process of the run in flight is gone *)

(** [on_modified] from its first line to the point where
    [subprocess.run] has started the child and waits for it. *)
Definition on_modified_enter (patterns : list string) (self_runner : TestRunner)
    (event : fs_event) (w : world) : world * option (proc_call * nat) :=
  if triggers patterns event then
    let w1 := set_console (console w ++ ["File changed: " ++ src_path event]) w in
    let w2 := set_console (console w1 ++ ["Running tests..."]) w1 in
    let c := pytest_call self_runner smoke_args None w2 in
    (set_trace (trace w2 ++ [ProcStart c]) w2, Some (c, started (trace w2)))
  else (w, None).

(** [on_modified] from the return of [subprocess.run] to its last line:
    the result dictionary is built (or the exception passed on) and the
    verdict printed. *)
Definition on_modified_leave (c : proc_call) (n : nat) (w : world)
    : result unit * world :=
  let o := run_outcome (spawn w n c) in
  let w1 := set_trace (trace w ++ [ProcExit o]) w in
  match o with
  | Completed rc _ err =>
      if rc =? 0 then
        (Return tt, set_console (console w1 ++ ["✅ Tests passed!"]) w1)
      else
        let w2 := set_console (console w1 ++ ["❌ Tests failed!"]) w1 in
        (Return tt, set_console (console w2 ++ [err]) w2)
  | Failed e | Exited _ e =>
      if is_Exception e then
        let w2 := set_console (console w1 ++ ["❌ Tests failed!"]) w1 in
        (Return tt, set_console (console w2 ++ [""]) w2)
      else (Raise e, w1)
  end.

Definition step (patterns : list string) (self_runner : TestRunner)
    (st : session) (l : step_label) : session :=
  let w := session_world st in
  match l with
  | Fire e => mkSession (set_queue (queue w ++ [e]) w) (thread st)
  | Dispatch =>
      match thread st, queue w with
      | Idle, e :: q =>
          match on_modified_enter patterns self_runner e (set_queue q w) with
          | (w', Some (c, n)) => mkSession w' (InHandler c n)
          | (w', None) => mkSession w' Idle
          end
      | _, _ => st
      end
  | ChildExit =>
      match thread st with
      | InHandler c n =>
          match on_modified_leave c n w with
          | (Return _, w') => mkSession w' Idle
          | (Raise _, w') => mkSession w' Dead
          end
      | _ => st
      end
  end.

(** A session under a schedule: any interleaving of changes reported,
    attempts of the observer to go on, and child processes ending. *)
Definition run_session (patterns : list string) (self_runner : TestRunner)
    (schedule : list step_label) (st : session) : session :=
  fold_left (step patterns self_runner) schedule st.

(** The guard [is_running]: a triggered run is in flight.  The code keeps
    it as the state of the observer thread, which is inside the handler
    from the start of a run to its end. *)
Definition is_running (st : session) : bool :=
  match thread st with
  | InHandler _ _ => true
  | Idle | Dead => false
  end.

Definition is_exit (i : trace_item) : bool :=
  match i with ProcStart _ => false | ProcExit _ => true end.

(** Number of calls of [subprocess.run] that have returned or raised. *)
Definition exited (t : list trace_item) : nat :=
  length (List.filter is_exit t).

(** Number of child processes in flight: started and not yet gone. *)
Definition in_flight (t : list trace_item) : nat := (started t - exited t)%nat.

(** The events that a schedule reports. *)
Definition fired (schedule : list step_label) : list fs_event :=
  flat_map (fun l => match l with Fire e => [e] | _ => [] end) schedule.

Definition is_child_exit (l : step_label) : bool :=
  match l with ChildExit => true | _ => false end.

(** The observer thread is in the handler exactly when one child process
    has been started more than have ended. *)
Definition balanced (st : session) : Prop :=
  let t := trace (session_world st) in
  match thread st with
  | InHandler _ _ => started t = S (exited t)
  | Idle | Dead => started t = exited t
  end.

(** ** Facts about the Python built-ins *)

Lemma endswith_unfold (s suffix : string) :
  endswith s suffix =
    String.eqb s suffix
    || match s with
       | EmptyString => false
       | String _ s' => endswith s' suffix
       end.
Proof. by destruct s. Qed.

Lemma endswith_spec (s suffix : string) :
  endswith s suffix = true <-> exists pre, s = pre ++ suffix.
Proof.
  induction s as [|c s IH]; rewrite endswith_unfold.
  - rewrite orb_false_r, String.eqb_eq. split.
    + intros <-. by exists "".
    + intros [pre H]. destruct pre; simpl in H; [done|discriminate].
  - rewrite orb_true_iff, String.eqb_eq, IH. split.
    + intros [<- | [pre ->]]; [by exists "" | by exists (String c pre)].
    + intros [[|d pre] H]; simpl in H.
      * by left.
      * right. exists pre. by inversion H.
Qed.

Lemma append_assoc (a b c : string) : (a ++ b) ++ c = a ++ b ++ c.
Proof. induction a as [|x a IH]; simpl; [done|]. by rewrite IH. Qed.

Lemma append_nil_r (a : string) : a ++ "" = a.
Proof. induction a as [|x a IH]; simpl; [done|]. by rewrite IH. Qed.

Lemma str_of_int_90 : str_of_int 90 = "90".
Proof. reflexivity. Qed.

Lemma str_exn_OSError_nonempty n msg file : str_exn (OSError n msg file) <> "".
Proof. discriminate. Qed.

Lemma truthy_str (s : string) : truthy (VStr s) = true <-> s <> "".
Proof.
  simpl. rewrite negb_true_iff. split.
  - intros H ->. discriminate.
  - intros H. apply String.eqb_neq. done.
Qed.

(** ** What [_run_pytest] does, in one equation *)

Lemma _run_pytest_eq self args env w :
  _run_pytest self args env w =
    let cmd := pytest_cmd (sys_executable w) args in
    match pytest_outcome self args env w with
    | Completed rc out err =>
        (Return (completed_result cmd rc out err), after_pytest self args env w)
    | Failed e | Exited _ e =>
        if is_Exception e
        then (Return (failed_result cmd e), after_pytest self args env w)
        else (Raise e, after_pytest self args env w)
    end.
Proof.
  unfold _run_pytest, pytest_outcome, after_pytest, pytest_call, child_env.
  unfold mbind, M_bind, bind, gets, try_except, env_or_environ, subprocess_run.
  destruct env as [e|]; simpl.
  - case_bool_decide; simpl;
      destruct (run_outcome _) as [rc out err|x|rc x]; simpl; try reflexivity;
      destruct (is_Exception x); reflexivity.
  - destruct (run_outcome _) as [rc out err|x|rc x]; simpl; try reflexivity;
      destruct (is_Exception x); reflexivity.
Qed.

Lemma trace_after_pytest self args env w :
  trace (after_pytest self args env w) =
    (trace w ++ [ProcStart (pytest_call self args env w);
                 ProcExit (pytest_outcome self args env w)])%list.
Proof. reflexivity. Qed.

Lemma _run_pytest_world self args env w :
  snd (_run_pytest self args env w) = after_pytest self args env w.
Proof.
  rewrite _run_pytest_eq. simpl.
  destruct (pytest_outcome _ _ _ _) as [rc out err|x|rc x]; [done| |];
    by destruct (is_Exception x).
Qed.

Lemma completed_result_fields cmd rc out err :
  let d := completed_result cmd rc out err in
  d !! "success" = Some (VBool (rc =? 0))
  /\ d !! "returncode" = Some (VInt rc)
  /\ d !! "stdout" = Some (VStr out)
  /\ d !! "stderr" = Some (VStr err)
  /\ d !! "command" = Some (VStr (join " " cmd))
  /\ d !! "error" = None.
Proof. unfold completed_result. repeat split; by simplify_map_eq. Qed.

Lemma failed_result_fields cmd e :
  let d := failed_result cmd e in
  d !! "success" = Some (VBool false)
  /\ d !! "error" = Some (VStr (str_exn e))
  /\ d !! "command" = Some (VStr (join " " cmd))
  /\ d !! "returncode" = None
  /\ d !! "stdout" = None
  /\ d !! "stderr" = None.
Proof. unfold failed_result. repeat split; by simplify_map_eq. Qed.

(** ** The result dictionary *)

(** C1, as the code has it.  Whenever the call of [subprocess.run]
    returns, with the child's exit code [rc], the dictionary returned by
    [_run_pytest] has ["success"] equal to [rc == 0] and ["returncode"]
    equal to [rc]; so exit code 0 gives [True] and every other exit code
    gives [False].  For every started run that is reported, ["success"]
    true means that the child exited with code 0, and a non-zero exit code
    means ["success"] false.  But a run whose call raises after the child
    has exited, as for output that cannot be decoded, is reported with
    ["success"] false and without ["returncode"], whatever the exit
    code. *)
Theorem success_iff_exit_code_zero self args env w :
  (forall rc out err,
     pytest_outcome self args env w = Completed rc out err ->
     exists d,
       fst (_run_pytest self args env w) = Return d
       /\ d !! "success" = Some (VBool (rc =? 0))
       /\ d !! "returncode" = Some (VInt rc)
       /\ (d !! "success" = Some (VBool true) <-> rc = 0))
  /\ (forall rc d,
        exit_code (pytest_outcome self args env w) = Some rc ->
        fst (_run_pytest self args env w) = Return d ->
        (d !! "success" = Some (VBool true) ->
         rc = 0 /\ d !! "returncode" = Some (VInt 0))
        /\ (rc <> 0 -> d !! "success" = Some (VBool false)))
  /\ (forall rc e,
        pytest_outcome self args env w = Exited rc e ->
        is_Exception e = true ->
        exists d,
          fst (_run_pytest self args env w) = Return d
          /\ d !! "success" = Some (VBool false)
          /\ d !! "returncode" = None
          /\ d !! "error" = Some (VStr (str_exn e))).
Proof.
  rewrite _run_pytest_eq. cbv zeta.
  set (cmd := pytest_cmd (sys_executable w) args).
  split; [|split].
  - intros rc out err ->. cbn [fst].
    eexists. split; [reflexivity|].
    destruct (completed_result_fields cmd rc out err) as (Hs & Hr & _).
    rewrite Hs, Hr. split; [done|]. split; [done|]. split.
    + intros [= H]. by apply Z.eqb_eq.
    + intros ->. done.
  - intros rc d Hexit.
    destruct (pytest_outcome self args env w) as [rc' out err|e|rc' e];
      cbn [exit_code] in Hexit; [|discriminate|]; injection Hexit as ->.
    + cbn [fst]. intros [= <-].
      destruct (completed_result_fields cmd rc out err) as (Hs & Hr & _).
      rewrite Hs, Hr. split.
      * intros [= H]. apply Z.eqb_eq in H. by subst rc.
      * intros Hne. apply Z.eqb_neq in Hne. by rewrite Hne.
    + destruct (is_Exception e); cbn [fst]; [|discriminate].
      intros [= <-].
      destruct (failed_result_fields cmd e) as (Hs & _).
      rewrite Hs. split; [discriminate|done].
  - intros rc e -> He. rewrite He. cbn [fst].
    eexists. split; [reflexivity|].
    by destruct (failed_result_fields cmd e) as (Hs & He' & _ & Hr & _).
Qed.

Lemma success_iff_exit_code_zero_witness :
  (pytest_outcome the_runner ["-m"; "smoke"; "-v"] None world_exit2
     = Completed 2 "collected 0 items" "usage error"
   /\ exists d,
        fst (_run_pytest the_runner ["-m"; "smoke"; "-v"] None world_exit2) = Return d
        /\ d !! "success" = Some (VBool (2 =? 0))
        /\ d !! "returncode" = Some (VInt 2)
        /\ (d !! "success" = Some (VBool true) <-> 2 = 0))
  /\ (exit_code (pytest_outcome the_runner ["-m"; "smoke"; "-v"] None world_exit2) = Some 2
      /\ 2 <> 0
      /\ exists d,
           fst (_run_pytest the_runner ["-m"; "smoke"; "-v"] None world_exit2) = Return d
           /\ d !! "success" = Some (VBool false))
  /\ (pytest_outcome the_runner ["-m"; "smoke"; "-v"] None world_undecodable
        = Exited 0 (OtherException
                      "'utf-8' codec can't decode byte 0xff in position 0: invalid start byte")
      /\ is_Exception (OtherException
                         "'utf-8' codec can't decode byte 0xff in position 0: invalid start byte")
         = true
      /\ exists d,
           fst (_run_pytest the_runner ["-m"; "smoke"; "-v"] None world_undecodable)
             = Return d
           /\ d !! "success" = Some (VBool false)
           /\ d !! "returncode" = None).
Proof.
  destruct (success_iff_exit_code_zero the_runner ["-m"; "smoke"; "-v"] None world_exit2)
    as (Hret & Hany & _).
  destruct (success_iff_exit_code_zero the_runner ["-m"; "smoke"; "-v"] None
              world_undecodable) as (_ & _ & Hexited).
  destruct (Hret 2 "collected 0 items" "usage error" eq_refl) as (d & Hd & Hs & Hr & Hiff).
  split; [|split].
  - split; [reflexivity|]. by exists d.
  - split; [reflexivity|]. split; [discriminate|].
    exists d. split; [exact Hd|].
    apply (Hany 2 d eq_refl Hd). discriminate.
  - split; [reflexivity|]. split; [reflexivity|].
    destruct (Hexited 0 _ eq_refl eq_refl) as (d' & Hd' & Hs' & Hr' & _).
    by exists d'.
Defined.

(** C1, as stated, fails.  The child is started and exits with code 0, but
    its output is not valid UTF-8 and [subprocess.run] raises when it
    decodes it; the handler turns that into a result with ["success"]
    false and no ["returncode"], where the claim wants ["success"] to be
    [0 == 0]. *)
Lemma exit_code_zero_reported_as_failure :
  exit_code (pytest_outcome the_runner ["-m"; "smoke"; "-v"] None world_undecodable)
    = Some 0
  /\ exists d,
       fst (_run_pytest the_runner ["-m"; "smoke"; "-v"] None world_undecodable) = Return d
       /\ d !! "success" = Some (VBool false)
       /\ d !! "returncode" = None
       /\ d !! "success" <> Some (VBool (0 =? 0)).
Proof.
  split; [reflexivity|].
  rewrite _run_pytest_eq. cbv zeta.
  assert (Ho : pytest_outcome the_runner ["-m"; "smoke"; "-v"] None world_undecodable
               = Exited 0 (OtherException
                   "'utf-8' codec can't decode byte 0xff in position 0: invalid start byte"))
    by reflexivity.
  rewrite Ho. cbn [is_Exception fst]. eexists. split; [reflexivity|].
  destruct (failed_result_fields
              (pytest_cmd (sys_executable world_undecodable) ["-m"; "smoke"; "-v"])
              (OtherException
                 "'utf-8' codec can't decode byte 0xff in position 0: invalid start byte"))
    as (Hs & _ & _ & Hr & _).
  rewrite Hs, Hr. split; [done|]. split; [done|]. discriminate.
Qed.

(** C2, as the code has it.  [_run_pytest] hands every outcome of the
    child process back as a dictionary instead of raising, as long as the
    exception is one below [Exception].  A non-zero exit code is a normal
    result with ["success"] false and the code under ["returncode"].  When
    the call fails with an exception below [Exception], the result has
    ["success"] false, the text of the exception under ["error"] and no
    ["returncode"] entry; for the [OSError] of a command that cannot be
    started (missing executable, permission denied) that text is not
    empty.  An exception that is not below [Exception]
    ([KeyboardInterrupt], [SystemExit]) is not caught: it reaches the
    caller. *)
Theorem executor_reports_instead_of_raising self args env w :
  (forall rc out err,
     pytest_outcome self args env w = Completed rc out err ->
     rc <> 0 ->
     exists d,
       _run_pytest self args env w = (Return d, after_pytest self args env w)
       /\ d !! "success" = Some (VBool false)
       /\ d !! "returncode" = Some (VInt rc))
  /\ (forall e,
     pytest_outcome self args env w = Failed e ->
     is_Exception e = true ->
     exists d reason,
       _run_pytest self args env w = (Return d, after_pytest self args env w)
       /\ d !! "success" = Some (VBool false)
       /\ d !! "error" = Some (VStr reason)
       /\ reason = str_exn e
       /\ d !! "returncode" = None
       /\ (forall n msg file, e = OSError n msg file -> reason <> ""))
  /\ (caught (pytest_outcome self args env w) = true ->
      exists d,
        _run_pytest self args env w = (Return d, after_pytest self args env w))
  /\ (forall e,
        pytest_outcome self args env w = Failed e
        \/ (exists rc, pytest_outcome self args env w = Exited rc e) ->
        is_Exception e = false ->
        _run_pytest self args env w = (Raise e, after_pytest self args env w)).
Proof.
  split; [|split; [|split]].
  - intros rc out err Ho Hrc. rewrite _run_pytest_eq, Ho. simpl.
    eexists. split; [reflexivity|].
    destruct (completed_result_fields (pytest_cmd (sys_executable w) args) rc out err)
      as (Hs & Hr & _).
    rewrite Hs, Hr. split; [|done].
    apply Z.eqb_neq in Hrc. by rewrite Hrc.
  - intros e Ho He. rewrite _run_pytest_eq, Ho, He. simpl.
    exists (failed_result (pytest_cmd (sys_executable w) args) e), (str_exn e).
    destruct (failed_result_fields (pytest_cmd (sys_executable w) args) e)
      as (Hs & He' & _ & Hr & _).
    repeat split; try done.
    intros n msg file ->. apply str_exn_OSError_nonempty.
  - intros Hc. rewrite _run_pytest_eq. cbv zeta.
    destruct (pytest_outcome self args env w) as [rc out err|e|rc e];
      cbn [caught] in Hc; rewrite ?Hc; by eexists.
  - intros e [Ho | (rc & Ho)] He; by rewrite _run_pytest_eq, Ho, He.
Qed.

Lemma executor_reports_instead_of_raising_witness :
  (pytest_outcome the_runner ["-v"] None world_exit2
     = Completed 2 "collected 0 items" "usage error"
   /\ 2 <> 0
   /\ exists d,
        _run_pytest the_runner ["-v"] None world_exit2
          = (Return d, after_pytest the_runner ["-v"] None world_exit2)
        /\ d !! "success" = Some (VBool false)
        /\ d !! "returncode" = Some (VInt 2))
  /\ (pytest_outcome the_runner ["-v"] None world_missing
        = Failed (OSError 2 "No such file or directory" "/nonexistent/python")
      /\ is_Exception (OSError 2 "No such file or directory" "/nonexistent/python") = true
      /\ exists d reason,
           _run_pytest the_runner ["-v"] None world_missing
             = (Return d, after_pytest the_runner ["-v"] None world_missing)
           /\ d !! "success" = Some (VBool false)
           /\ d !! "error" = Some (VStr reason)
           /\ reason = "[Errno 2] No such file or directory: '/nonexistent/python'"
           /\ d !! "returncode" = None
           /\ reason <> "")
  /\ (caught (pytest_outcome the_runner ["-v"] None world_undecodable) = true
      /\ exists d,
           _run_pytest the_runner ["-v"] None world_undecodable
           = (Return d, after_pytest the_runner ["-v"] None world_undecodable))
  /\ (pytest_outcome the_runner ["-v"] None world_interrupted = Failed KeyboardInterrupt
      /\ is_Exception KeyboardInterrupt = false
      /\ _run_pytest the_runner ["-v"] None world_interrupted
         = (Raise KeyboardInterrupt, after_pytest the_runner ["-v"] None world_interrupted)).
Proof.
  split; [|split; [|split]].
  - split; [reflexivity|]. split; [discriminate|].
    apply (proj1 (executor_reports_instead_of_raising the_runner ["-v"] None world_exit2)
             2 "collected 0 items" "usage error"); [reflexivity|discriminate].
  - split; [reflexivity|]. split; [reflexivity|].
    destruct (proj1 (proj2 (executor_reports_instead_of_raising the_runner ["-v"] None
                              world_missing))
                (OSError 2 "No such file or directory" "/nonexistent/python")
                eq_refl eq_refl) as (d & reason & H1 & H2 & H3 & H4 & H5 & H6).
    exists d, reason. repeat split; try assumption.
    eapply H6. reflexivity.
  - split; [reflexivity|].
    apply (proj1 (proj2 (proj2 (executor_reports_instead_of_raising the_runner ["-v"] None
                                  world_undecodable)))).
    reflexivity.
  - split; [reflexivity|]. split; [reflexivity|].
    apply (proj2 (proj2 (proj2 (executor_reports_instead_of_raising the_runner ["-v"] None
                                  world_interrupted)))); [by left|reflexivity].
Defined.

(** C2, as stated, fails.  Ctrl+C while the child runs makes
    [subprocess.run] raise [KeyboardInterrupt]; [except Exception] does not
    catch it, so [_run_pytest] returns no result: the exception is
    propagated to the caller. *)
Lemma keyboard_interrupt_reaches_the_caller :
  fst (_run_pytest the_runner ["-v"] None world_interrupted) = Raise KeyboardInterrupt
  /\ ~ exists d, fst (_run_pytest the_runner ["-v"] None world_interrupted) = Return d.
Proof.
  assert (H : fst (_run_pytest the_runner ["-v"] None world_interrupted)
              = Raise KeyboardInterrupt).
  { rewrite _run_pytest_eq. reflexivity. }
  split; [exact H|]. intros (d & Hd). rewrite H in Hd. discriminate.
Qed.

(** ** The command line and the environment of the child process *)

(** C3.  Whatever the argument list [args] (and environment) of a profile,
    [_run_pytest] makes exactly one call of the executor; its command is
    the fixed prefix [sys.executable -m pytest] followed by [args]
    element for element, and the outcome of the child process is what the
    caller finds in the returned dictionary: exit code, standard output
    and standard error are passed on as they are. *)
Theorem command_is_prefix_then_arguments self args env w :
  exists c,
    trace (snd (_run_pytest self args env w))
      = (trace w ++ [ProcStart c; ProcExit (pytest_outcome self args env w)])%list
    /\ call_cmd c = ([sys_executable w; "-m"; "pytest"] ++ args)%list
    /\ take 3 (call_cmd c) = [sys_executable w; "-m"; "pytest"]
    /\ drop 3 (call_cmd c) = args
    /\ (forall rc out err,
          pytest_outcome self args env w = Completed rc out err ->
          exists d,
            fst (_run_pytest self args env w) = Return d
            /\ d !! "returncode" = Some (VInt rc)
            /\ d !! "stdout" = Some (VStr out)
            /\ d !! "stderr" = Some (VStr err)
            /\ d !! "command" = Some (VStr (join " " (call_cmd c)))).
Proof.
  exists (pytest_call self args env w).
  rewrite _run_pytest_world, trace_after_pytest.
  repeat split.
  intros rc out err Ho. rewrite _run_pytest_eq, Ho. simpl.
  eexists. split; [reflexivity|].
  destruct (completed_result_fields (pytest_cmd (sys_executable w) args) rc out err)
    as (_ & Hr & Hout & Herr & Hc & _).
  done.
Qed.

Lemma command_is_prefix_then_arguments_witness :
  exists c,
    trace (snd (_run_pytest the_runner ["-k"; "login"; "-x"] None world_exit2))
      = [ProcStart c; ProcExit (Completed 2 "collected 0 items" "usage error")]
    /\ call_cmd c = ["/usr/bin/python3"; "-m"; "pytest"; "-k"; "login"; "-x"]
    /\ drop 3 (call_cmd c) = ["-k"; "login"; "-x"]
    /\ (pytest_outcome the_runner ["-k"; "login"; "-x"] None world_exit2
          = Completed 2 "collected 0 items" "usage error")
    /\ exists d,
         fst (_run_pytest the_runner ["-k"; "login"; "-x"] None world_exit2) = Return d
         /\ d !! "returncode" = Some (VInt 2)
         /\ d !! "stdout" = Some (VStr "collected 0 items")
         /\ d !! "stderr" = Some (VStr "usage error").
Proof.
  destruct (command_is_prefix_then_arguments the_runner ["-k"; "login"; "-x"] None
              world_exit2) as (c & Ht & Hc & _ & Hd & Hres).
  exists c. repeat split; try assumption.
  destruct (Hres 2 "collected 0 items" "usage error" eq_refl)
    as (d & H1 & H2 & H3 & H4 & _).
  exists d. repeat split; assumption.
Defined.

(** C7.  The catalog of profiles: each [run_*] method calls the executor
    once with the fixed prefix followed by its own argument template.  The
    smoke profile appends [-m smoke -v]; the coverage profile with
    threshold [n] appends a list that contains [--cov-fail-under=n] in
    decimal, so threshold 90 gives [--cov-fail-under=90]. *)
Theorem profile_catalog self w :
  let calls (m : M (gmap string value)) : list trace_item :=
    drop (length (trace w)) (trace (snd (m w))) in
  let call_with (args : list string) : list trace_item :=
    [ProcStart (ProcCall ([sys_executable w; "-m"; "pytest"] ++ args)%list
                  (base_dir self) (environ w));
     ProcExit (pytest_outcome self args None w)] in
  calls (run_smoke_tests self) = call_with ["-m"; "smoke"; "-v"]
  /\ calls (run_api_tests self) = call_with ["-m"; "api"; "-v"]
  /\ calls (run_ui_tests self) = call_with ["-m"; "ui"; "-v"]
  /\ calls (run_integration_tests self) = call_with ["-m"; "integration"; "-v"]
  /\ calls (run_performance_tests self) = call_with ["-m"; "slow"; "-v"; "--tb=short"]
  /\ (forall workers,
        calls (run_parallel_tests self workers)
          = call_with ["-n"; str_of_int workers; "-v"])
  /\ (forall n,
        calls (run_with_coverage self n)
          = call_with ["--cov=src"; "--cov-report=html"; "--cov-report=term-missing";
                       "--cov-fail-under=" ++ str_of_int n; "-v"])
  /\ calls (run_with_coverage self 90)
       = call_with ["--cov=src"; "--cov-report=html"; "--cov-report=term-missing";
                    "--cov-fail-under=90"; "-v"]
  /\ (forall n, In ("--cov-fail-under=" ++ str_of_int n) (coverage_args n)).
Proof.
  assert (Hcall : forall args,
    drop (length (trace w)) (trace (snd (_run_pytest self args None w)))
    = [ProcStart (ProcCall ([sys_executable w; "-m"; "pytest"] ++ args)%list
                    (base_dir self) (environ w));
       ProcExit (pytest_outcome self args None w)]).
  { intros args. rewrite _run_pytest_world, trace_after_pytest.
    by rewrite drop_app_length. }
  cbv zeta beta.
  unfold run_smoke_tests, run_api_tests, run_ui_tests, run_integration_tests,
    run_performance_tests, run_parallel_tests, run_with_coverage.
  do 5 (split; [apply Hcall|]).
  do 2 (split; [intros; apply Hcall|]).
  split; [apply (Hcall (coverage_args 90))|].
  intros n. simpl. tauto.
Qed.

(** C8.  The browser profile runs the child process with a copy of the
    ambient environment in which [PLAYWRIGHT_BROWSER] is set to the
    requested browser: that key reads as the browser name, whatever it was
    before, every other variable reads as in the ambient environment, and
    the ambient environment itself is left as it was.  A profile without
    overrides passes the ambient environment on as it is. *)
Theorem browser_environment_override self browser w :
  let w' := snd (run_browser_specific_tests self browser w) in
  exists c o,
    trace w' = (trace w ++ [ProcStart c; ProcExit o])%list
    /\ call_cmd c = [sys_executable w; "-m"; "pytest"; "-v"]
    /\ call_env c = <["PLAYWRIGHT_BROWSER" := browser]> (environ w)
    /\ call_env c !! "PLAYWRIGHT_BROWSER" = Some browser
    /\ (forall k, k <> "PLAYWRIGHT_BROWSER" -> call_env c !! k = environ w !! k)
    /\ environ w' = environ w
    /\ (forall args, call_env (pytest_call self args None w) = environ w).
Proof.
  assert (Hrun : run_browser_specific_tests self browser w
                 = _run_pytest self ["-v"]
                     (Some (<["PLAYWRIGHT_BROWSER" := browser]> (environ w))) w)
    by reflexivity.
  assert (Henv : child_env (Some (<["PLAYWRIGHT_BROWSER" := browser]> (environ w))) w
                 = <["PLAYWRIGHT_BROWSER" := browser]> (environ w)).
  { unfold child_env. case_bool_decide as H; [|done].
    by apply insert_non_empty in H. }
  cbv zeta. rewrite Hrun, _run_pytest_world, trace_after_pytest.
  eexists _, _. split; [reflexivity|].
  unfold pytest_call at 1 2 3 4. cbn [call_cmd call_env]. rewrite Henv.
  do 2 (split; [reflexivity|]).
  split; [apply lookup_insert_eq|].
  split; [intros k Hk; by apply lookup_insert_ne|].
  split; [reflexivity|].
  intros args. reflexivity.
Qed.

Lemma browser_environment_override_witness :
  let w' := snd (run_browser_specific_tests the_runner "firefox" world_pass) in
  exists c o,
    trace w' = [ProcStart c; ProcExit o]
    /\ call_env c !! "PLAYWRIGHT_BROWSER" = Some "firefox"
    /\ "PATH" <> "PLAYWRIGHT_BROWSER"
    /\ call_env c !! "PATH" = Some "/usr/bin"
    /\ environ w' !! "PLAYWRIGHT_BROWSER" = Some "chromium".
Proof.
  destruct (browser_environment_override the_runner "firefox" world_pass)
    as (c & o & Ht & _ & _ & Hb & Hk & He & _).
  exists c, o. split; [exact Ht|]. split; [exact Hb|].
  split; [discriminate|]. split.
  - rewrite (Hk "PATH"); [reflexivity|discriminate].
  - cbv zeta. rewrite He. reflexivity.
Defined.

(** ** Watching for changes *)

Lemma started_app (t1 t2 : list trace_item) :
  started (t1 ++ t2) = (started t1 + started t2)%nat.
Proof. unfold started. by rewrite List.filter_app, length_app. Qed.

Lemma serial_from_app (t1 t2 : list trace_item) (running : bool) :
  serial_from running t1 = true ->
  serial_from running (t1 ++ t2) = serial_from false t2.
Proof.
  revert running. induction t1 as [|[c|o] t1 IH]; intros running; simpl.
  - by destruct running.
  - destruct running; simpl; [done|]. apply IH.
  - destruct running; simpl; [|done]. apply IH.
Qed.

Lemma serial_app (t1 t2 : list trace_item) :
  serial t1 = true -> serial t2 = true -> serial (t1 ++ t2) = true.
Proof. unfold serial. intros H1 H2. by rewrite serial_from_app. Qed.

Lemma triggers_spec patterns event :
  triggers patterns event = true <-> suffix_condition patterns event.
Proof.
  unfold triggers, suffix_condition, any.
  rewrite andb_true_iff, negb_true_iff, existsb_exists.
  split; intros [Hd (p & Hp & He)]; (split; [done|]); exists p; (split; [done|]).
  - by apply endswith_spec.
  - by apply endswith_spec.
Qed.

(** The handler's effect on the trace: nothing, or one whole run of the
    smoke profile. *)
Lemma on_modified_trace patterns self_runner event w :
  trace (snd (on_modified patterns self_runner event w)) =
    if triggers patterns event
    then (trace w ++ [ProcStart (pytest_call self_runner smoke_args None w);
                      ProcExit (pytest_outcome self_runner smoke_args None w)])%list
    else trace w.
Proof.
  unfold on_modified. destruct (triggers patterns event); [|reflexivity].
  unfold run_smoke_tests, mbind, M_bind, bind, print, modify.
  fold smoke_args.
  set (w1 := set_console _ (set_console _ w)).
  assert (Htr : trace (after_pytest self_runner smoke_args None w1)
                = (trace w ++ [ProcStart (pytest_call self_runner smoke_args None w);
                               ProcExit (pytest_outcome self_runner smoke_args None w)])%list)
    by reflexivity.
  assert (Ho : pytest_outcome self_runner smoke_args None w1
               = pytest_outcome self_runner smoke_args None w) by reflexivity.
  rewrite _run_pytest_eq, Ho. cbv zeta.
  destruct (pytest_outcome self_runner smoke_args None w) as [rc out err|x|rc x].
  - unfold getitem.
    destruct (completed_result_fields
                (pytest_cmd (sys_executable w1) smoke_args) rc out err)
      as (Hs & _).
    rewrite Hs. unfold mret, M_ret, ret. cbn [truthy].
    destruct (rc =? 0); exact Htr.
  - destruct (is_Exception x); [|exact Htr].
    unfold getitem.
    destruct (failed_result_fields (pytest_cmd (sys_executable w1) smoke_args) x)
      as (Hs & _).
    rewrite Hs. exact Htr.
  - destruct (is_Exception x); [|exact Htr].
    unfold getitem.
    destruct (failed_result_fields (pytest_cmd (sys_executable w1) smoke_args) x)
      as (Hs & _).
    rewrite Hs. exact Htr.
Qed.

Lemma on_modified_idle patterns self_runner event w :
  triggers patterns event = false ->
  on_modified patterns self_runner event w = (Return tt, w).
Proof. unfold on_modified. by intros ->. Qed.

(** The observer hands the handler one event after the other; what this
    adds to the trace is a serial run per triggering event. *)
Lemma dispatch_events_trace patterns self_runner n w :
  exists evs w' t,
    dispatch_events (on_modified patterns self_runner) n w = (Return evs, w')
    /\ trace w' = (trace w ++ t)%list
    /\ serial t = true
    /\ started t = length (List.filter (triggers patterns) evs).
Proof.
  revert w. induction n as [|n IH]; intros w; simpl.
  { exists [], w, []. by rewrite app_nil_r. }
  destruct (queue w) as [|e q] eqn:Hq.
  { exists [], w, []. by rewrite app_nil_r. }
  pose proof (on_modified_trace patterns self_runner e (set_queue q w)) as Ht.
  change (trace (set_queue q w)) with (trace w) in Ht.
  destruct (on_modified patterns self_runner e (set_queue q w)) as [[[]|x] w1] eqn:Hh;
    cbn [snd] in Ht; cbn [List.filter];
    destruct (triggers patterns e) eqn:Htrig.
  - destruct (IH w1) as (evs & w2 & t2 & Hd & Ht2 & Hs2 & Hn2).
    rewrite Hd. eexists _, w2, (_ ++ t2)%list. split; [reflexivity|].
    split; [by rewrite Ht2, Ht, <- app_assoc|].
    split; [by apply serial_app|].
    cbn [List.filter]. rewrite Htrig, started_app, Hn2. reflexivity.
  - destruct (IH w1) as (evs & w2 & t2 & Hd & Ht2 & Hs2 & Hn2).
    rewrite Hd. exists (e :: evs), w2, t2. split; [reflexivity|].
    split; [by rewrite Ht2, Ht|]. split; [done|].
    cbn [List.filter]. by rewrite Htrig.
  - eexists [e], w1, _. split; [reflexivity|]. split; [exact Ht|].
    cbn [List.filter]. by rewrite Htrig.
  - exists [e], w1, []. split; [reflexivity|].
    split; [by rewrite Ht, app_nil_r|]. cbn [List.filter]. by rewrite Htrig.
Qed.

(** *** The watch session step by step *)

Lemma exited_app (t1 t2 : list trace_item) :
  exited (t1 ++ t2) = (exited t1 + exited t2)%nat.
Proof. unfold exited. by rewrite List.filter_app, length_app. Qed.

Lemma on_modified_leave_trace c n w :
  trace (snd (on_modified_leave c n w))
  = (trace w ++ [ProcExit (run_outcome (spawn w n c))])%list.
Proof.
  unfold on_modified_leave. cbv zeta.
  destruct (run_outcome (spawn w n c)) as [rc out err|x|rc x].
  - by destruct (rc =? 0).
  - by destruct (is_Exception x).
  - by destruct (is_Exception x).
Qed.

(** What one step does to the trace and to the observer thread. *)
Lemma step_cases patterns self_runner st l :
  let st' := step patterns self_runner st l in
  let t := trace (session_world st) in
  let t' := trace (session_world st') in
  (t' = t /\ thread st' = thread st)
  \/ (exists c n, thread st = Idle /\ thread st' = InHandler c n
                  /\ t' = (t ++ [ProcStart c])%list)
  \/ (exists c n o, thread st = InHandler c n /\ is_running st' = false
                    /\ t' = (t ++ [ProcExit o])%list).
Proof.
  destruct st as [w th]. cbv zeta. destruct l as [e| |]; cbn [step session_world thread].
  - left. by split.
  - destruct th as [|c n|]; [|by left|by left].
    destruct (queue w) as [|e q]; [by left|].
    unfold on_modified_enter. destruct (triggers patterns e).
    + right. left. eexists _, _. cbn [session_world thread]. split; [done|].
      split; [reflexivity|]. reflexivity.
    + left. by split.
  - destruct th as [|c n|]; [by left| |by left].
    right. right. exists c, n, (run_outcome (spawn w n c)).
    pose proof (on_modified_leave_trace c n w) as Ht.
    destruct (on_modified_leave c n w) as [[[]|x] w']; cbn [snd] in Ht;
      cbn [session_world thread]; by split.
Qed.

Lemma step_balanced patterns self_runner st l :
  balanced st -> balanced (step patterns self_runner st l).
Proof.
  intros Hb.
  destruct (step_cases patterns self_runner st l)
    as [[Ht Hth]|[(c & n & Hth & Hth' & Ht)|(c & n & o & Hth & Hr & Ht)]];
    unfold balanced in *; cbv zeta in *.
  - by rewrite Ht, Hth.
  - rewrite Hth in Hb. rewrite Hth', Ht, started_app, exited_app.
    change (started [ProcStart c]) with 1%nat.
    change (exited [ProcStart c]) with 0%nat. lia.
  - rewrite Hth in Hb. rewrite Ht, started_app, exited_app.
    change (started [ProcExit o]) with 0%nat.
    change (exited [ProcExit o]) with 1%nat.
    unfold is_running in Hr.
    destruct (thread (step patterns self_runner st l)); [lia|done|lia].
Qed.

Lemma run_session_balanced patterns self_runner schedule st :
  balanced st -> balanced (run_session patterns self_runner schedule st).
Proof.
  unfold run_session. revert st.
  induction schedule as [|l schedule IH]; intros st Hb; [done|].
  cbn [fold_left]. apply IH. by apply step_balanced.
Qed.

Lemma balanced_in_flight st :
  balanced st ->
  (in_flight (trace (session_world st)) <= 1)%nat
  /\ (is_running st = true <-> in_flight (trace (session_world st)) = 1%nat).
Proof.
  unfold balanced, in_flight, is_running. cbv zeta.
  destruct (thread st); intros H; rewrite H; split; try lia; split; try done; lia.
Qed.

(** While the observer is in the handler, reported changes only join
    the queue. *)
Lemma blocked_while_running patterns self_runner more st :
  forallb (fun l => negb (is_child_exit l)) more = true ->
  is_running st = true ->
  let st' := run_session patterns self_runner more st in
  trace (session_world st') = trace (session_world st)
  /\ thread st' = thread st
  /\ queue (session_world st') = (queue (session_world st) ++ fired more)%list.
Proof.
  unfold run_session. revert st.
  induction more as [|l more IH]; intros st Hm Hr; cbv zeta.
  { cbn [fold_left fired flat_map]. by rewrite app_nil_r. }
  cbn [forallb] in Hm. apply andb_true_iff in Hm as [Hl Hm].
  cbn [fold_left].
  assert (Hst : trace (session_world (step patterns self_runner st l))
                = trace (session_world st)
                /\ thread (step patterns self_runner st l) = thread st
                /\ queue (session_world (step patterns self_runner st l))
                   = (queue (session_world st)
                      ++ match l with Fire e => [e] | _ => [] end)%list).
  { destruct st as [w th]. unfold is_running in Hr. cbn [thread] in Hr.
    destruct th as [|c n|]; [done| |done].
    destruct l as [e| |]; cbn [step session_world thread]; [done| |done].
    by rewrite app_nil_r. }
  destruct Hst as (Ht & Hth & Hq).
  assert (Hr' : is_running (step patterns self_runner st l) = true)
    by (unfold is_running in *; by rewrite Hth).
  destruct (IH _ Hm Hr') as (Ht' & Hth' & Hq').
  split; [by rewrite Ht', Ht|]. split; [by rewrite Hth', Hth|].
  rewrite Hq', Hq, <- app_assoc. reflexivity.
Qed.

Lemma run_session_app patterns self_runner s1 s2 st :
  run_session patterns self_runner (s1 ++ s2) st
  = run_session patterns self_runner s2 (run_session patterns self_runner s1 st).
Proof. unfold run_session. apply fold_left_app. Qed.

Lemma run_session_fires patterns self_runner es w th :
  run_session patterns self_runner (map Fire es) (mkSession w th)
  = mkSession (set_queue (queue w ++ es) w) th.
Proof.
  unfold run_session. revert w. induction es as [|e es IH]; intros w.
  - cbn [map fold_left]. rewrite app_nil_r. by destruct w.
  - cbn [map fold_left step session_world thread]. rewrite IH.
    cbn [queue set_queue]. rewrite <- app_assoc. reflexivity.
Qed.

(** Start and end of a child process, recorded one after the other with
    the changes reported in between, leave the world [subprocess.run]
    leaves. *)
Lemma enter_then_leave w es c o :
  let w_start := set_trace (trace w ++ [ProcStart c]) w in
  let w_fired := set_queue (queue w_start ++ es) w_start in
  set_trace (trace w_fired ++ [ProcExit o]) w_fired
  = set_queue (queue w ++ es) (set_trace (trace w ++ [ProcStart c; ProcExit o]) w).
Proof. destruct w. cbv zeta. unfold set_trace, set_queue. cbn. by rewrite <- app_assoc. Qed.

(** The steps are the handler cut in two: the observer takes an event,
    the changes reported during the run are queued, the child ends.
    Together they are one call of [on_modified]. *)
Lemma on_modified_in_steps patterns self_runner e q w :
  queue w = e :: q ->
  let w0 := set_queue q w in
  let r := spawn w0 (started (trace w0)) (pytest_call self_runner smoke_args None w0) in
  let schedule :=
    if triggers patterns e
    then (Dispatch :: map Fire (run_fired r) ++ [ChildExit])%list
    else [Dispatch] in
  run_session patterns self_runner schedule (mkSession w Idle)
  = mkSession (snd (on_modified patterns self_runner e w0))
              match fst (on_modified patterns self_runner e w0) with
              | Return _ => Idle
              | Raise _ => Dead
              end.
Proof.
  intros Hq. cbv zeta. unfold on_modified.
  destruct (triggers patterns e) eqn:Htrig.
  2:{ unfold run_session. cbn [fold_left step session_world thread].
      rewrite Hq. unfold on_modified_enter. rewrite Htrig. reflexivity. }
  change (Dispatch :: ?l ++ [ChildExit])%list with ([Dispatch] ++ l ++ [ChildExit])%list.
  rewrite !run_session_app.
  unfold run_session at 3. cbn [fold_left step session_world thread].
  rewrite Hq. unfold on_modified_enter. rewrite Htrig. cbv zeta.
  rewrite run_session_fires.
  unfold run_session. cbn [fold_left step session_world thread].
  unfold run_smoke_tests, mbind, M_bind, bind, print, modify.
  fold smoke_args.
  set (w1 := set_console _ (set_console _ (set_queue q w))).
  rewrite _run_pytest_eq. cbv zeta.
  unfold on_modified_leave. cbv zeta.
  match goal with |- context [run_outcome (spawn ?a ?b ?c)] =>
    change (run_outcome (spawn a b c))
      with (pytest_outcome self_runner smoke_args None w1)
  end.
  pose proof (enter_then_leave w1
                (run_fired (spawn (set_queue q w) (started (trace (set_queue q w)))
                              (pytest_call self_runner smoke_args None (set_queue q w))))
                (pytest_call self_runner smoke_args None w1)) as Hw.
  cbv zeta in Hw.
  unfold after_pytest. cbv zeta.
  destruct (pytest_outcome self_runner smoke_args None w1) as [rc out err|x|rc x] eqn:Ho;
    unfold pytest_outcome in Ho; rewrite Hw, ?Ho.
  - unfold getitem.
    destruct (completed_result_fields
                (pytest_cmd (sys_executable w1) smoke_args) rc out err)
      as (Hs & _ & _ & Herr & _).
    rewrite Hs. unfold mret, M_ret, ret, get_or. rewrite Herr. cbn [truthy].
    by destruct (rc =? 0).
  - destruct (is_Exception x); [|done].
    unfold getitem.
    destruct (failed_result_fields (pytest_cmd (sys_executable w1) smoke_args) x)
      as (Hs & _ & _ & _ & _ & Herr).
    rewrite Hs. unfold mret, M_ret, ret, get_or. rewrite Herr. by cbn [truthy].
  - destruct (is_Exception x); [|done].
    unfold getitem.
    destruct (failed_result_fields (pytest_cmd (sys_executable w1) smoke_args) x)
      as (Hs & _ & _ & _ & _ & Herr).
    rewrite Hs. unfold mret, M_ret, ret, get_or. rewrite Herr. by cbn [truthy].
Qed.

(** Every session of [dispatch_events] is a schedule of steps. *)
Lemma dispatch_events_in_steps patterns self_runner n w :
  exists schedule,
    session_world (run_session patterns self_runner schedule (mkSession w Idle))
    = snd (dispatch_events (on_modified patterns self_runner) n w).
Proof.
  revert w. induction n as [|n IH]; intros w; cbn [dispatch_events].
  { by exists []. }
  destruct (queue w) as [|e q] eqn:Hq.
  { by exists []. }
  pose proof (on_modified_in_steps patterns self_runner e q w Hq) as Hs.
  cbv zeta in Hs.
  destruct (on_modified patterns self_runner e (set_queue q w)) as [[[]|x] w1];
    cbn [fst snd] in Hs.
  - destruct (IH w1) as (s2 & H2).
    eexists (_ ++ s2)%list. rewrite run_session_app, Hs, H2.
    by destruct (dispatch_events (on_modified patterns self_runner) n w1) as [[es|y] w2].
  - eexists. by rewrite Hs.
Qed.

(** An idle observer with a triggering event at the head of its queue
    starts the run of the smoke profile. *)
Lemma dispatch_starts_run patterns self_runner st e q :
  thread st = Idle ->
  queue (session_world st) = e :: q ->
  triggers patterns e = true ->
  let st' := step patterns self_runner st Dispatch in
  is_running st' = true
  /\ trace (session_world st')
     = (trace (session_world st)
        ++ [ProcStart (pytest_call self_runner smoke_args None (session_world st))])%list
  /\ queue (session_world st') = q.
Proof.
  destruct st as [w th]. cbn [session_world thread]. intros -> Hq Ht. cbv zeta.
  cbn [step session_world thread]. rewrite Hq.
  unfold on_modified_enter. rewrite Ht. cbv zeta.
  cbn [session_world thread]. by split.
Qed.

(** When the child is gone the observer leaves the handler. *)
Lemma child_exit_ends_run patterns self_runner st :
  is_running st = true ->
  let st' := step patterns self_runner st ChildExit in
  is_running st' = false
  /\ exited (trace (session_world st')) = S (exited (trace (session_world st)))
  /\ started (trace (session_world st')) = started (trace (session_world st)).
Proof.
  destruct st as [w th]. unfold is_running. cbn [session_world thread].
  destruct th as [|c n|]; [done| |done]. intros _. cbv zeta.
  cbn [step session_world thread].
  pose proof (on_modified_leave_trace c n w) as Ht.
  destruct (on_modified_leave c n w) as [[[]|x] w']; cbn [snd] in Ht;
    cbn [session_world thread]; rewrite Ht, exited_app, started_app;
    change (exited [ProcExit _]) with 1%nat;
    change (started [ProcExit _]) with 0%nat;
    (split; [done|]); lia.
Qed.

(** C4.  At most one triggered run is in flight at a time, and while one
    is in flight no further run starts, however many changes are reported.
    The session is followed step by step: a change is reported ([Fire]),
    the observer thread goes on to its next event ([Dispatch]), the child
    process of the run in flight ends ([ChildExit]); the schedule is any
    interleaving of these.  The guard [is_running] is the observer thread
    being inside [on_modified], where it waits in [subprocess.run]: it
    becomes true exactly in the step that starts a child process and
    false exactly in the step in which that child is gone.  While it is
    true, reported changes join the observer's queue and start nothing. *)
Theorem at_most_one_run_in_flight patterns self_runner schedule st0 :
  thread st0 = Idle ->
  started (trace (session_world st0)) = exited (trace (session_world st0)) ->
  let st := run_session patterns self_runner schedule st0 in
  let t := trace (session_world st) in
  (in_flight t <= 1)%nat
  /\ (is_running st = true <-> in_flight t = 1%nat)
  /\ (forall more,
        is_running st = true ->
        forallb (fun l => negb (is_child_exit l)) more = true ->
        let st' := run_session patterns self_runner more st in
        trace (session_world st') = t
        /\ is_running st' = true
        /\ queue (session_world st')
           = (queue (session_world st) ++ fired more)%list)
  /\ (forall l,
        let st' := step patterns self_runner st l in
        let t' := trace (session_world st') in
        (started t' = S (started t)
         <-> is_running st = false /\ is_running st' = true)
        /\ (exited t' = S (exited t)
            <-> is_running st = true /\ is_running st' = false))
  /\ (forall e q,
        thread st = Idle ->
        queue (session_world st) = e :: q ->
        triggers patterns e = true ->
        let st' := step patterns self_runner st Dispatch in
        is_running st' = true
        /\ trace (session_world st')
           = (t ++ [ProcStart (pytest_call self_runner smoke_args None
                                 (session_world st))])%list)
  /\ (is_running st = true ->
      let st' := step patterns self_runner st ChildExit in
      is_running st' = false
      /\ in_flight (trace (session_world st')) = 0%nat).
Proof.
  intros Hth H0. cbv zeta.
  assert (Hb : balanced (run_session patterns self_runner schedule st0)).
  { apply run_session_balanced. unfold balanced. cbv zeta. by rewrite Hth. }
  set (st := run_session patterns self_runner schedule st0) in *.
  destruct (balanced_in_flight st Hb) as [Hle Hiff].
  split; [exact Hle|]. split; [exact Hiff|].
  split; [|split; [|split]].
  - intros more Hr Hm.
    destruct (blocked_while_running patterns self_runner more st Hm Hr)
      as (Ht & Hth' & Hq).
    split; [exact Ht|]. split; [|exact Hq].
    unfold is_running in *. by rewrite Hth'.
  - intros l.
    destruct (step_cases patterns self_runner st l)
      as [[Ht Hth']|[(c & n & Hi & Hth' & Ht)|(c & n & o & Hi & Hr & Ht)]].
    + rewrite Ht. unfold is_running. rewrite Hth'.
      split; (split; [lia|]); intros [H1 H2]; congruence.
    + rewrite Ht, started_app, exited_app.
      change (started [ProcStart c]) with 1%nat.
      change (exited [ProcStart c]) with 0%nat.
      unfold is_running. rewrite Hi, Hth'.
      split; split; try lia; try done; by intros [? ?].
    + rewrite Ht, started_app, exited_app.
      change (started [ProcExit o]) with 0%nat.
      change (exited [ProcExit o]) with 1%nat.
      rewrite Hr. unfold is_running. rewrite Hi.
      split; split; try lia; try done; by intros [? ?].
  - intros e q Hi Hq Ht.
    destruct (dispatch_starts_run patterns self_runner st e q Hi Hq Ht)
      as (Hr & Htr & _).
    by split.
  - intros Hr.
    destruct (child_exit_ends_run patterns self_runner st Hr) as (Hr' & He & Hs).
    split; [exact Hr'|].
    unfold in_flight. rewrite He, Hs.
    apply Hiff in Hr. unfold in_flight in Hr. lia.
Qed.

Lemma at_most_one_run_in_flight_witness :
  let st0 := mkSession world_two_changes_in_flight Idle in
  let schedule := [Dispatch;
                   Fire (FsEvent "tests/test_b.py" false);
                   Fire (FsEvent "tests/test_c.py" false);
                   Dispatch] in
  let st := run_session ["*.py"] the_runner schedule st0 in
  let more := [Fire (FsEvent "tests/test_d.py" false); Dispatch; Dispatch] in
  thread st0 = Idle
  /\ started (trace (session_world st0)) = exited (trace (session_world st0))
  /\ is_running st = true
  /\ in_flight (trace (session_world st)) = 1%nat
  /\ started (trace (session_world st)) = 1%nat
  /\ trace (session_world (run_session ["*.py"] the_runner more st))
     = trace (session_world st)
  /\ queue (session_world (run_session ["*.py"] the_runner more st))
     = [FsEvent "tests/test_b.py" false; FsEvent "tests/test_c.py" false;
        FsEvent "tests/test_d.py" false].
Proof.
  cbv zeta.
  split; [reflexivity|]. split; [reflexivity|].
  destruct (at_most_one_run_in_flight ["*.py"] the_runner
              [Dispatch;
               Fire (FsEvent "tests/test_b.py" false);
               Fire (FsEvent "tests/test_c.py" false);
               Dispatch]
              (mkSession world_two_changes_in_flight Idle)
              eq_refl eq_refl)
    as (_ & Hiff & Hmore & _ & _ & _).
  cbv zeta in Hmore.
  assert (Hr : is_running
                 (run_session ["*.py"] the_runner
                    [Dispatch;
                     Fire (FsEvent "tests/test_b.py" false);
                     Fire (FsEvent "tests/test_c.py" false);
                     Dispatch]
                    (mkSession world_two_changes_in_flight Idle)) = true)
    by (vm_compute; reflexivity).
  split; [exact Hr|]. split; [by apply Hiff|].
  split; [vm_compute; reflexivity|].
  destruct (Hmore [Fire (FsEvent "tests/test_d.py" false); Dispatch; Dispatch]
              Hr eq_refl) as (Ht & _ & Hq).
  split; [exact Ht|]. rewrite Hq. vm_compute. reflexivity.
Defined.

(** ** Which events trigger a run *)

Lemma remove_stars_literal (p : string) :
  Reference.literal p = true -> remove_stars p = p.
Proof.
  induction p as [|c p IH]; simpl; [done|].
  rewrite !andb_true_iff, !negb_true_iff. intros [[Hc _] Hp].
  rewrite Hc. by rewrite IH.
Qed.

Lemma glob_match_literal (p : string) :
  Reference.literal p = true ->
  forall s, Reference.glob_match p s = String.eqb s p.
Proof.
  induction p as [|c p IH]; intros Hp s.
  - reflexivity.
  - simpl in Hp. rewrite !andb_true_iff, !negb_true_iff in Hp.
    destruct Hp as [[Hstar Hq] Hp]. specialize (IH Hp).
    assert (Hstep : Reference.glob_match (String c p) s =
                    match s with
                    | EmptyString => false
                    | String d s' => Ascii.eqb c d && Reference.glob_match p s'
                    end).
    { destruct c as [[] [] [] [] [] [] [] []];
        try discriminate Hstar; try discriminate Hq; reflexivity. }
    rewrite Hstep. destruct s as [|d s]; [reflexivity|].
    rewrite IH. simpl. rewrite (Ascii.eqb_sym d c).
    by destruct (Ascii.eqb c d).
Qed.

Lemma glob_match_star (p s : string) :
  Reference.glob_match (String "*" p) s =
    Reference.glob_match p s
    || match s with
       | EmptyString => false
       | String _ s' => Reference.glob_match (String "*" p) s'
       end.
Proof. by destruct s. Qed.

Lemma endswith_is_glob (p : string) :
  Reference.literal p = true ->
  forall path,
    endswith path (remove_stars (String "*" p))
    = Reference.glob_match (String "*" p) path.
Proof.
  intros Hp path.
  change (remove_stars (String "*" p)) with (remove_stars p).
  rewrite (remove_stars_literal p Hp).
  induction path as [|c path IH]; rewrite endswith_unfold, glob_match_star;
    rewrite (glob_match_literal p Hp).
  - reflexivity.
  - by rewrite IH.
Qed.

(** C9, as the code has it.  Handling a modification event starts a run
    exactly when the changed path is not a directory and ends with one of
    the patterns from which every [*] has been deleted; any other event
    leaves the world as it was.  The patterns default to [*.py], and for a
    pattern that is a [*] followed by literal text, such as the default,
    this suffix test is glob matching. *)
Theorem trigger_condition patterns self_runner event w :
  (suffix_condition patterns event -> run_triggered patterns self_runner event w)
  /\ (~ suffix_condition patterns event ->
      on_modified patterns self_runner event w = (Return tt, w)
      /\ ~ run_triggered patterns self_runner event w)
  /\ patterns_or_default None = ["*.py"]
  /\ patterns_or_default (Some []) = ["*.py"]
  /\ (forall p path,
        Reference.literal p = true ->
        endswith path (remove_stars (String "*" p))
        = Reference.glob_match (String "*" p) path).
Proof.
  unfold run_triggered. rewrite on_modified_trace.
  split; [|split; [|split; [reflexivity|split; [reflexivity|]]]].
  - intros Hc. apply triggers_spec in Hc. rewrite Hc, started_app.
    change (started [ProcStart _; ProcExit _]) with 1%nat. lia.
  - intros Hc. destruct (triggers patterns event) eqn:Ht.
    + exfalso. apply Hc. by apply triggers_spec.
    + split; [by apply on_modified_idle | lia].
  - intros p path Hp. by apply endswith_is_glob.
Qed.

Lemma trigger_condition_witness :
  (suffix_condition ["*.py"] (FsEvent "tests/test_a.py" false)
   /\ run_triggered ["*.py"] the_runner (FsEvent "tests/test_a.py" false) world_pass)
  /\ (~ suffix_condition ["*.py"] (FsEvent "tests" true)
      /\ on_modified ["*.py"] the_runner (FsEvent "tests" true) world_pass
         = (Return tt, world_pass))
  /\ (Reference.literal ".py" = true
      /\ endswith "tests/test_a.py" (remove_stars "*.py")
         = Reference.glob_match "*.py" "tests/test_a.py").
Proof.
  assert (H1 : suffix_condition ["*.py"] (FsEvent "tests/test_a.py" false)).
  { apply triggers_spec. reflexivity. }
  assert (H2 : ~ suffix_condition ["*.py"] (FsEvent "tests" true)).
  { intros H. apply triggers_spec in H. discriminate H. }
  split; [|split].
  - split; [exact H1|].
    apply (proj1 (trigger_condition ["*.py"] the_runner
                    (FsEvent "tests/test_a.py" false) world_pass) H1).
  - split; [exact H2|].
    apply (proj1 (proj2 (trigger_condition ["*.py"] the_runner
                           (FsEvent "tests" true) world_pass)) H2).
  - split; [reflexivity|].
    apply (proj2 (proj2 (proj2 (proj2
             (trigger_condition ["*.py"] the_runner (FsEvent "tests" true) world_pass))))
             ".py" "tests/test_a.py").
    reflexivity.
Defined.

(** C9, as stated, fails for a pattern with a star in the middle: the
    file [tests/test_login.py] matches the glob [tests/test_*.py], yet its
    modification triggers no run, because the path does not end with
    [tests/test_.py]. *)
Lemma glob_pattern_not_honoured :
  let patterns := ["tests/test_*.py"] in
  let event := FsEvent "tests/test_login.py" false in
  glob_condition patterns event
  /\ on_modified patterns the_runner event world_pass = (Return tt, world_pass)
  /\ ~ (run_triggered patterns the_runner event world_pass
        <-> glob_condition patterns event).
Proof.
  cbv zeta.
  assert (Hg : glob_condition ["tests/test_*.py"] (FsEvent "tests/test_login.py" false)).
  { split; [reflexivity|]. exists "tests/test_*.py". split; [by left|reflexivity]. }
  assert (Hi : on_modified ["tests/test_*.py"] the_runner
                 (FsEvent "tests/test_login.py" false) world_pass
               = (Return tt, world_pass)).
  { apply on_modified_idle. reflexivity. }
  split; [exact Hg|]. split; [exact Hi|].
  intros [_ H]. specialize (H Hg). unfold run_triggered in H.
  rewrite Hi in H. simpl in H. discriminate H.
Qed.

(** ** The report *)

Lemma format_html_template (status status_class : string)
    (returncode command stdout : value) (section : string) :
  format html_template
    [("status", VStr status);
     ("status_class", VStr status_class);
     ("returncode", returncode);
     ("command", command);
     ("stdout", stdout);
     ("stderr_section", VStr section)]
  = Return (document status_class status (str returncode) (str command)
              (str stdout) section).
Proof. vm_compute. reflexivity. Qed.

Lemma stderr_section_eq results w :
  stderr_section results w = (Return (section_text results), w).
Proof.
  unfold stderr_section, section_text, get, getitem.
  destruct (results !! "stderr") as [v|]; simpl; [|reflexivity].
  destruct (truthy v); reflexivity.
Qed.

(** [html_content] never raises and does not look at the world. *)
Lemma html_content_eq results w :
  html_content results w = (Return (report_of results), w).
Proof.
  unfold html_content, mbind, M_bind, bind.
  rewrite stderr_section_eq. unfold lift.
  by rewrite format_html_template.
Qed.

Lemma create_test_report_eq results output_file w :
  writable w output_file = true ->
  create_test_report results output_file w =
    (Return tt,
     set_console (console w ++ ["Test report saved to: " ++ output_file])
       (set_files (<[output_file := report_of results]> (files w)) w)).
Proof.
  intros Hw. unfold create_test_report, mbind, M_bind, bind.
  rewrite html_content_eq. unfold write_file. rewrite Hw. reflexivity.
Qed.

Lemma section_text_included results :
  section_text results <> ""
  <-> exists v, results !! "stderr" = Some v /\ truthy v = true.
Proof.
  unfold section_text, get.
  destruct (results !! "stderr") as [v|]; simpl.
  - destruct (truthy v) eqn:Hv.
    + split; [intros _; by exists v | intros _; discriminate].
    + split; [done | intros (v' & [= <-] & Hv'); congruence].
  - split; [done | intros (v & H & _); discriminate].
Qed.

(** C6.  The report is a function of the result dictionary alone: the
    document computed in one world is the document computed in any other,
    and so is the content of the file written (when the file can be
    opened).  When the run succeeded, as for the dictionary of a passing
    run with exit code 0 and nothing captured, the document contains the
    text PASSED. *)
Theorem report_is_deterministic results output_file w1 w2 :
  fst (html_content results w1) = fst (html_content results w2)
  /\ (writable w1 output_file = true ->
      writable w2 output_file = true ->
      exists doc,
        fst (html_content results w1) = Return doc
        /\ files (snd (create_test_report results output_file w1)) !! output_file
           = Some doc
        /\ files (snd (create_test_report results output_file w2)) !! output_file
           = Some doc)
  /\ (truthy (get results "success") = true ->
      exists doc pre post,
        fst (html_content results w1) = Return doc
        /\ doc = pre ++ "PASSED" ++ post)
  /\ (exists doc pre post,
        fst (html_content result_pass_empty w1) = Return doc
        /\ doc = pre ++ "PASSED" ++ post).
Proof.
  rewrite !html_content_eq.
  split; [reflexivity|]. split; [|split].
  - intros H1 H2. exists (report_of results).
    rewrite !create_test_report_eq by assumption.
    split; [reflexivity|]. cbn [snd files set_console set_files].
    split; apply lookup_insert_eq.
  - intros Hs. unfold report_of, document. rewrite Hs.
    eexists _, _, _. split; [reflexivity|].
    repeat rewrite <- (append_assoc _ _ ("PASSED" ++ _)). reflexivity.
  - unfold report_of, document.
    assert (Hs : truthy (get result_pass_empty "success") = true) by reflexivity.
    rewrite Hs.
    eexists _, _, _. split; [reflexivity|].
    repeat rewrite <- (append_assoc _ _ ("PASSED" ++ _)). reflexivity.
Qed.

Lemma report_is_deterministic_witness :
  writable world_pass "test-report.html" = true
  /\ writable world_exit2 "test-report.html" = true
  /\ truthy (get result_pass_empty "success") = true
  /\ (exists doc,
        files (snd (create_test_report result_pass_empty "test-report.html" world_pass))
          !! "test-report.html" = Some doc
        /\ files (snd (create_test_report result_pass_empty "test-report.html" world_exit2))
             !! "test-report.html" = Some doc)
  /\ (exists doc pre post,
        fst (html_content result_pass_empty world_pass) = Return doc
        /\ doc = pre ++ "PASSED" ++ post).
Proof.
  split; [reflexivity|]. split; [reflexivity|]. split; [reflexivity|].
  destruct (report_is_deterministic result_pass_empty "test-report.html"
              world_pass world_exit2) as (_ & Hfile & Hpass & _).
  split.
  - destruct (Hfile eq_refl eq_refl) as (doc & _ & H1 & H2).
    exists doc. by split.
  - apply Hpass. reflexivity.
Defined.

(** C10.  Rendering is total: for every result dictionary [html_content]
    returns a document and raises nothing, and [create_test_report] writes
    it whenever the file can be opened.  For the dictionary of a run that
    could not be started, which has no [returncode], [stdout] or [stderr]
    entry, the document shows N/A as return code and No output as output
    and has no "Errors" section.  In general the "Errors" section is there
    exactly when the [stderr] entry is present and truthy, which for a
    string means not empty. *)
Theorem report_is_total results w :
  html_content results w = (Return (report_of results), w)
  /\ (forall output_file,
        writable w output_file = true ->
        exists w',
          create_test_report results output_file w = (Return tt, w')
          /\ files w' !! output_file = Some (report_of results))
  /\ (results !! "returncode" = None ->
      results !! "stdout" = None ->
      results !! "stderr" = None ->
      exists status_class status command,
        report_of results
        = document status_class status "N/A" command "No output" "")
  /\ (forall cmd e,
        html_content (failed_result cmd e) w
        = (Return (document "failure" "FAILED" "N/A" (join " " cmd) "No output" ""), w))
  /\ (section_text results <> ""
      <-> exists v, results !! "stderr" = Some v /\ truthy v = true)
  /\ (forall v,
        results !! "stderr" = Some v -> truthy v = true ->
        section_text results
        = ("
        <h2>Errors</h2>
        <pre class=" ++ String "034" "" ++ "failure" ++ String "034" ""
          ++ ">" ++ str v ++ "</pre>
        "))
  /\ report_of results
     = document
         (if truthy (get results "success") then "success" else "failure")
         (if truthy (get results "success") then "PASSED" else "FAILED")
         (str (get_or results "returncode" (VStr "N/A")))
         (str (get_or results "command" (VStr "N/A")))
         (str (get_or results "stdout" (VStr "No output")))
         match results !! "stderr" with
         | Some v =>
             if truthy v
             then ("
        <h2>Errors</h2>
        <pre class=" ++ String "034" "" ++ "failure" ++ String "034" ""
                  ++ ">" ++ str v ++ "</pre>
        ")
             else ""
         | None => ""
         end
  /\ (forall s, truthy (VStr s) = true <-> s <> "").
Proof.
  split; [apply html_content_eq|].
  split.
  { intros f Hf. rewrite create_test_report_eq by assumption.
    eexists. split; [reflexivity|].
    cbn [files set_console set_files]. by rewrite lookup_insert_eq. }
  split.
  { intros Hr Ho He. unfold report_of, section_text, get, get_or.
    rewrite Hr, Ho, He. simpl. by eexists _, _, _. }
  split.
  { intros cmd e. rewrite html_content_eq.
    destruct (failed_result_fields cmd e) as (Hs & _ & Hc & Hr & Ho & He).
    unfold report_of, section_text, get, get_or.
    rewrite Hs, Hc, Hr, Ho, He. reflexivity. }
  split; [apply section_text_included|].
  split.
  { intros v Hv Ht. unfold section_text, get. rewrite Hv. simpl. by rewrite Ht. }
  split; [|apply truthy_str].
  unfold report_of, section_text, get.
  destruct (results !! "stderr") as [v|]; [|reflexivity].
  cbn [default id]. by destruct (truthy v).
Qed.

Lemma report_is_total_witness :
  let results :=
    failed_result ["/nonexistent/python"; "-m"; "pytest"; "-v"]
      (OSError 2 "No such file or directory" "/nonexistent/python") in
  writable world_missing "test-report.html" = true
  /\ results !! "returncode" = None
  /\ results !! "stdout" = None
  /\ results !! "stderr" = None
  /\ (exists w',
        create_test_report results "test-report.html" world_missing = (Return tt, w')
        /\ files w' !! "test-report.html" = Some (report_of results))
  /\ (exists status_class status command,
        report_of results
        = document status_class status "N/A" command "No output" "")
  /\ result_plain !! "stderr" = Some (VStr "AssertionError")
  /\ truthy (VStr "AssertionError") = true
  /\ section_text result_plain
     = ("
        <h2>Errors</h2>
        <pre class=" ++ String "034" "" ++ "failure" ++ String "034" ""
       ++ ">" ++ "AssertionError" ++ "</pre>
        ").
Proof.
  cbv zeta.
  set (results := failed_result _ _).
  destruct (failed_result_fields ["/nonexistent/python"; "-m"; "pytest"; "-v"]
              (OSError 2 "No such file or directory" "/nonexistent/python"))
    as (_ & _ & _ & Hr & Ho & He).
  fold results in Hr, Ho, He.
  destruct (report_is_total results world_missing) as (_ & Hw & Hna & _).
  destruct (report_is_total result_plain world_missing) as (_ & _ & _ & _ & _ & Hsec & _).
  assert (Hp : result_plain !! "stderr" = Some (VStr "AssertionError")).
  { destruct (completed_result_fields ["/usr/bin/python3"; "-m"; "pytest"; "-v"] 1
                "1 failed, 2 passed" "AssertionError") as (_ & _ & _ & H & _).
    exact H. }
  split; [reflexivity|]. split; [exact Hr|]. split; [exact Ho|]. split; [exact He|].
  split; [apply Hw; reflexivity|].
  split; [by apply Hna|].
  split; [exact Hp|]. split; [reflexivity|].
  exact (Hsec (VStr "AssertionError") Hp eq_refl).
Defined.

(** ** Captured text in the report *)

Import Reference.

Lemma html_unescape_escape (s : string) : html_unescape (html_escape s) = s.
Proof.
  induction s as [|c s IH]; [reflexivity|].
  destruct c as [[] [] [] [] [] [] [] []]; simpl; by rewrite IH.
Qed.

Lemma html_escape_plain (s : string) : has_special s = false -> html_escape s = s.
Proof.
  induction s as [|c s IH]; simpl; [done|].
  rewrite !orb_false_iff. intros [[[-> ->] ->] Hs]. by rewrite IH.
Qed.

Lemma html_unescape_plain (s : string) : has_special s = false -> html_unescape s = s.
Proof.
  induction s as [|c s IH]; [done|].
  destruct c as [[] [] [] [] [] [] [] []]; simpl; try discriminate;
    intros Hs; by rewrite IH.
Qed.

Lemma strip_prefix_mismatch (p s t : string) :
  mismatch p s = true -> strip_prefix p (s ++ t) = None.
Proof.
  revert s. induction p as [|a p IH]; intros [|b s]; simpl; try discriminate.
  destruct (Ascii.eqb a b); [apply IH|done].
Qed.

Lemma strip_prefix_app (p s t after : string) :
  strip_prefix p s = Some after -> strip_prefix p (s ++ t) = Some (after ++ t).
Proof.
  revert s. induction p as [|a p IH]; intros s; simpl.
  - by intros [= ->].
  - destruct s as [|b s]; simpl; [discriminate|].
    destruct (Ascii.eqb a b); [apply IH|discriminate].
Qed.

Lemma split_at_first_unfold (needle s : string) :
  split_at_first needle s =
    match strip_prefix needle s with
    | Some after => Some (EmptyString, after)
    | None =>
        match s with
        | EmptyString => None
        | String c s' =>
            match split_at_first needle s' with
            | Some (before, after) => Some (String c before, after)
            | None => None
            end
        end
    end.
Proof. by destruct s. Qed.

(** Text in which no occurrence of the needle starts is skipped. *)
Lemma split_skip (needle s t : string) :
  clean needle s = true ->
  split_at_first needle (s ++ t) =
    match split_at_first needle t with
    | Some (before, after) => Some (s ++ before, after)
    | None => None
    end.
Proof.
  induction s as [|c s IH].
  - intros _. simpl. by destruct (split_at_first needle t) as [[]|].
  - cbn [clean]. rewrite andb_true_iff. intros [Hm Hc].
    rewrite split_at_first_unfold.
    rewrite (strip_prefix_mismatch _ _ _ Hm).
    cbn [String.append]. rewrite (IH Hc).
    by destruct (split_at_first needle t) as [[]|].
Qed.

(** An occurrence found inside a text is the first one, whatever follows. *)
Lemma split_found (needle s t before after : string) :
  split_inside needle s = Some (before, after) ->
  split_at_first needle (s ++ t) = Some (before, after ++ t).
Proof.
  revert before. induction s as [|c s IH]; intros before.
  - cbn [split_inside].
    destruct (strip_prefix needle "") as [a|] eqn:Hp; [|discriminate].
    intros [= <- <-]. rewrite split_at_first_unfold.
    by rewrite (strip_prefix_app _ _ t _ Hp).
  - cbn [split_inside]. rewrite split_at_first_unfold.
    destruct (strip_prefix needle (String c s)) as [a|] eqn:Hp.
    + intros [= <- <-]. by rewrite (strip_prefix_app _ _ t _ Hp).
    + destruct (mismatch needle (String c s)) eqn:Hm; [|discriminate].
      rewrite (strip_prefix_mismatch _ _ t Hm).
      destruct (split_inside needle s) as [[b a]|]; [|discriminate].
      intros [= <- <-]. cbn [String.append]. by rewrite (IH b eq_refl).
Qed.

Lemma clean_plain (p s : string) :
  has_special s = false -> clean (String "<" p) s = true.
Proof.
  induction s as [|c s IH]; [done|].
  cbn [has_special clean mismatch].
  rewrite !orb_false_iff. intros [[[_ Hlt] _] Hs].
  rewrite (Ascii.eqb_sym "<" c), Hlt. by rewrite IH.
Qed.

(** Re-parsing a report gives back the output text when neither it nor the
    fields in front of it hold markup. *)
Lemma output_text_document (sc st rc cmd out section : string) :
  clean "<pre>" sc = true ->
  clean "<pre>" st = true ->
  has_special rc = false ->
  has_special cmd = false ->
  has_special out = false ->
  output_text (document sc st rc cmd out section) = Some out.
Proof.
  intros Hsc Hst Hrc Hcmd Hout.
  unfold output_text, document.
  rewrite split_skip by reflexivity.
  rewrite (split_skip _ dq) by reflexivity.
  rewrite (split_skip _ sc) by assumption.
  rewrite (split_skip _ dq) by reflexivity.
  rewrite split_skip by reflexivity.
  rewrite (split_skip _ st) by assumption.
  rewrite split_skip by reflexivity.
  rewrite (split_skip _ rc) by (by apply clean_plain).
  rewrite split_skip by reflexivity.
  rewrite (split_skip _ cmd) by (by apply clean_plain).
  erewrite split_found by (vm_compute; reflexivity).
  cbv beta iota.
  lazymatch goal with
  | |- context [EmptyString ++ ?x] => change (EmptyString ++ x) with x
  end.
  rewrite (split_skip _ out) by (by apply clean_plain).
  erewrite split_found by (vm_compute; reflexivity).
  cbv beta iota. rewrite append_nil_r.
  by rewrite html_unescape_plain.
Qed.

Lemma clean_failure_tag (s : string) :
  has_special s = false -> clean failure_tag s = true.
Proof. apply (clean_plain _ s). Qed.

(** The same for the captured errors. *)
Lemma errors_text_document (sc st rc cmd out err : string) :
  clean failure_tag sc = true ->
  clean failure_tag st = true ->
  has_special rc = false ->
  has_special cmd = false ->
  has_special out = false ->
  has_special err = false ->
  errors_text (document sc st rc cmd out (errors_section (VStr err))) = Some err.
Proof.
  intros Hsc Hst Hrc Hcmd Hout Herr.
  unfold errors_text, document, errors_section. cbn [str].
  rewrite split_skip by reflexivity.
  rewrite (split_skip _ dq) by reflexivity.
  rewrite (split_skip _ sc) by assumption.
  rewrite (split_skip _ dq) by reflexivity.
  rewrite split_skip by reflexivity.
  rewrite (split_skip _ st) by assumption.
  rewrite split_skip by reflexivity.
  rewrite (split_skip _ rc) by (by apply clean_failure_tag).
  rewrite split_skip by reflexivity.
  rewrite (split_skip _ cmd) by (by apply clean_failure_tag).
  rewrite split_skip by reflexivity.
  rewrite (split_skip _ out) by (by apply clean_failure_tag).
  rewrite split_skip by reflexivity.
  rewrite !append_assoc.
  repeat rewrite <- (append_assoc _ _ (err ++ _)).
  erewrite split_found by (vm_compute; reflexivity).
  cbv beta iota.
  lazymatch goal with
  | |- context [EmptyString ++ ?x] => change (EmptyString ++ x) with x
  end.
  rewrite (split_skip _ err) by (by apply clean_plain).
  erewrite split_found by (vm_compute; reflexivity).
  cbv beta iota. rewrite append_nil_r.
  by rewrite html_unescape_plain.
Qed.

(** C5, as the code has it.  [create_test_report] does not escape: the
    captured standard output and standard error are put into the document
    as they are, between the tags of their [pre] elements.  So the text is
    recovered by re-parsing the report when it is free of [<], [>] and [&]
    (and so are the return code and command fields in front of it), in
    which case it also is its own escaped form. *)
Theorem captured_text_is_embedded_verbatim results w out err :
  results !! "stdout" = Some (VStr out) ->
  results !! "stderr" = Some (VStr err) ->
  let rc := str (get_or results "returncode" (VStr "N/A")) in
  let cmd := str (get_or results "command" (VStr "N/A")) in
  exists status_class status,
    html_content results w
    = (Return (document status_class status rc cmd out
                 (if String.eqb err "" then ""
                  else errors_section (VStr err))), w)
    /\ (has_special rc = false ->
        has_special cmd = false ->
        has_special out = false ->
        html_escape out = out
        /\ output_text (report_of results) = Some out
        /\ (has_special err = false ->
            err <> "" ->
            html_escape err = err
            /\ errors_text (report_of results) = Some err)).
Proof.
  intros Hout Herr rc cmd.
  assert (Hrep : report_of results
                 = document
                     (if truthy (get results "success") then "success" else "failure")
                     (if truthy (get results "success") then "PASSED" else "FAILED")
                     rc cmd out
                     (if String.eqb err "" then "" else errors_section (VStr err))).
  { unfold report_of, section_text, get, get_or. rewrite Hout, Herr. simpl.
    by destruct (String.eqb err ""). }
  eexists _, _. split; [rewrite html_content_eq, Hrep; reflexivity|].
  intros Hrc Hcmd Hplain. split; [by apply html_escape_plain|].
  rewrite Hrep. split.
  - apply output_text_document; try assumption;
      by destruct (truthy (get results "success")).
  - intros Heplain Hne. split; [by apply html_escape_plain|].
    apply String.eqb_neq in Hne. rewrite Hne.
    apply errors_text_document; try assumption;
      by destruct (truthy (get results "success")).
Qed.

Lemma captured_text_is_embedded_verbatim_witness :
  result_plain !! "stdout" = Some (VStr "1 failed, 2 passed")
  /\ result_plain !! "stderr" = Some (VStr "AssertionError")
  /\ has_special (str (get_or result_plain "returncode" (VStr "N/A"))) = false
  /\ has_special (str (get_or result_plain "command" (VStr "N/A"))) = false
  /\ has_special "1 failed, 2 passed" = false
  /\ has_special "AssertionError" = false
  /\ "AssertionError" <> ""
  /\ output_text (report_of result_plain) = Some "1 failed, 2 passed"
  /\ errors_text (report_of result_plain) = Some "AssertionError".
Proof.
  destruct (completed_result_fields ["/usr/bin/python3"; "-m"; "pytest"; "-v"] 1
              "1 failed, 2 passed" "AssertionError")
    as (_ & Hrc & Hout & Herr & Hcmd & _).
  fold result_plain in Hrc, Hout, Herr, Hcmd.
  assert (H1 : has_special (str (get_or result_plain "returncode" (VStr "N/A"))) = false).
  { unfold get_or. rewrite Hrc. reflexivity. }
  assert (H2 : has_special (str (get_or result_plain "command" (VStr "N/A"))) = false).
  { unfold get_or. rewrite Hcmd. reflexivity. }
  destruct (captured_text_is_embedded_verbatim result_plain world_pass
              "1 failed, 2 passed" "AssertionError" Hout Herr)
    as (sc & st & _ & Hround).
  destruct (Hround H1 H2 eq_refl) as (_ & Ho & He).
  destruct (He eq_refl ltac:(discriminate)) as (_ & He').
  split; [exact Hout|]. split; [exact Herr|]. split; [exact H1|].
  split; [exact H2|]. split; [reflexivity|]. split; [reflexivity|].
  split; [discriminate|]. split; [exact Ho|exact He'].
Defined.

(** C5, as stated, fails.  A captured output that holds the text of a
    closing [pre] tag ends the output element early: re-parsing the report
    yields only what stood before that tag, not the captured text. *)
Lemma markup_in_output_breaks_round_trip :
  let out := "assert page.content() == '</pre><h1>Welcome</h1>'" in
  result_with_markup !! "stdout" = Some (VStr out)
  /\ has_special out = true
  /\ exists doc,
       fst (html_content result_with_markup world_pass) = Return doc
       /\ output_text doc = Some "assert page.content() == '"
       /\ output_text doc <> Some out.
Proof.
  cbv zeta.
  split.
  { destruct (completed_result_fields ["/usr/bin/python3"; "-m"; "pytest"; "-v"] 1
                "assert page.content() == '</pre><h1>Welcome</h1>'" "1 failed")
      as (_ & _ & H & _).
    exact H. }
  split; [reflexivity|].
  exists (report_of result_with_markup).
  split; [by rewrite html_content_eq|].
  assert (H : output_text (report_of result_with_markup)
              = Some "assert page.content() == '") by (vm_compute; reflexivity).
  rewrite H. split; [reflexivity|discriminate].
Qed.

(** ** Further properties of the runner *)

Lemma _run_pytest_caught self args env w :
  caught (pytest_outcome self args env w) = true ->
  _run_pytest self args env w =
    (Return (result_of (pytest_cmd (sys_executable w) args)
               (pytest_outcome self args env w)),
     after_pytest self args env w).
Proof.
  intros Hc. rewrite _run_pytest_eq. cbv zeta.
  destruct (pytest_outcome self args env w) as [rc out err|e|rc e];
    [reflexivity| |]; simpl in Hc; by rewrite Hc.
Qed.

Lemma result_of_success cmd o :
  result_of cmd o !! "success"
  = Some (VBool match o with
                | Completed rc _ _ => rc =? 0
                | Failed _ | Exited _ _ => false
                end).
Proof.
  destruct o as [rc out err|e|rc e]; simpl.
  - by destruct (completed_result_fields cmd rc out err) as (H & _).
  - by destruct (failed_result_fields cmd e) as (H & _).
  - by destruct (failed_result_fields cmd e) as (H & _).
Qed.

(** X1.  An empty mapping passed as [env] is falsy, so it is replaced by
    the ambient environment: [_run_pytest] with [env={}] does exactly what
    it does with [env=None], and the child never runs with an empty
    environment. *)
Theorem empty_env_means_ambient_env self args w :
  _run_pytest self args (Some ∅) w = _run_pytest self args None w
  /\ call_env (pytest_call self args (Some ∅) w) = environ w.
Proof.
  assert (Hc : pytest_call self args (Some ∅) w = pytest_call self args None w).
  { unfold pytest_call, child_env. by rewrite bool_decide_eq_true_2. }
  split.
  - rewrite !_run_pytest_eq. unfold pytest_outcome, after_pytest.
    by rewrite Hc.
  - by rewrite Hc.
Qed.

(** X2.  [except Exception] does not catch what is only a
    [BaseException]: when the call of [subprocess.run] ends in a
    [KeyboardInterrupt] or [SystemExit], [_run_pytest] builds no result
    dictionary and the exception reaches the caller; the change handler
    passes it on as well, having printed its two opening lines and no
    verdict. *)
Theorem interrupt_is_not_swallowed patterns self_runner event w e :
  pytest_outcome self_runner smoke_args None w = Failed e ->
  is_Exception e = false ->
  fst (_run_pytest self_runner smoke_args None w) = Raise e
  /\ (triggers patterns event = true ->
      fst (on_modified patterns self_runner event w) = Raise e
      /\ console (snd (on_modified patterns self_runner event w))
         = (console w ++ [("File changed: " ++ src_path event)%string; "Running tests..."])%list).
Proof.
  intros Ho He. split.
  - by rewrite _run_pytest_eq, Ho, He.
  - intros Ht. unfold on_modified. rewrite Ht.
    unfold run_smoke_tests, mbind, M_bind, bind, print, modify.
    fold smoke_args.
    set (w1 := set_console _ (set_console _ w)).
    assert (Ho1 : pytest_outcome self_runner smoke_args None w1 = Failed e)
      by exact Ho.
    rewrite _run_pytest_eq, Ho1, He. cbv zeta. split; [reflexivity|].
    cbn. by rewrite <- app_assoc.
Qed.

Lemma interrupt_is_not_swallowed_witness :
  let w := world_where "/usr/bin/python3" (Failed KeyboardInterrupt) in
  pytest_outcome the_runner smoke_args None w = Failed KeyboardInterrupt
  /\ is_Exception KeyboardInterrupt = false
  /\ triggers ["*.py"] (FsEvent "tests/test_a.py" false) = true
  /\ fst (_run_pytest the_runner smoke_args None w) = Raise KeyboardInterrupt
  /\ fst (on_modified ["*.py"] the_runner (FsEvent "tests/test_a.py" false) w)
     = Raise KeyboardInterrupt.
Proof.
  cbv zeta.
  destruct (interrupt_is_not_swallowed ["*.py"] the_runner
              (FsEvent "tests/test_a.py" false)
              (world_where "/usr/bin/python3" (Failed KeyboardInterrupt))
              KeyboardInterrupt eq_refl eq_refl) as (H1 & H2).
  destruct (H2 eq_refl) as (H3 & _).
  split; [reflexivity|]. split; [reflexivity|]. split; [reflexivity|].
  split; [exact H1|exact H3].
Defined.



(** ** Further properties of the watch session *)

Lemma same_surroundings_refl w : same_surroundings w w.
Proof. by repeat split. Qed.

Lemma same_surroundings_trans w1 w2 w3 :
  same_surroundings w1 w2 -> same_surroundings w2 w3 -> same_surroundings w1 w3.
Proof.
  intros (a1 & a2 & a3 & a4 & a5 & a6) (b1 & b2 & b3 & b4 & b5 & b6).
  unfold same_surroundings. rewrite b1, b2, b3, b4, b5, b6. by repeat split.
Qed.

Lemma pytest_call_surroundings self args env w w' :
  same_surroundings w w' ->
  pytest_call self args env w' = pytest_call self args env w.
Proof.
  intros (H1 & H2 & _). unfold pytest_call, child_env. by rewrite H1, H2.
Qed.

Lemma on_modified_surroundings patterns self_runner event w :
  same_surroundings w (snd (on_modified patterns self_runner event w)).
Proof.
  unfold on_modified.
  destruct (triggers patterns event); [|apply same_surroundings_refl].
  unfold run_smoke_tests, mbind, M_bind, bind, print, modify.
  fold smoke_args.
  set (w1 := set_console _ (set_console _ w)).
  rewrite _run_pytest_eq. cbv zeta.
  destruct (pytest_outcome self_runner smoke_args None w1) as [rc out err|x|rc x].
  - unfold getitem.
    destruct (completed_result_fields
                (pytest_cmd (sys_executable w1) smoke_args) rc out err)
      as (Hs & _).
    rewrite Hs. unfold mret, M_ret, ret. cbn [truthy].
    destruct (rc =? 0); by repeat split.
  - destruct (is_Exception x); [|by repeat split].
    unfold getitem.
    destruct (failed_result_fields (pytest_cmd (sys_executable w1) smoke_args) x)
      as (Hs & _).
    rewrite Hs. by repeat split.
  - destruct (is_Exception x); [|by repeat split].
    unfold getitem.
    destruct (failed_result_fields (pytest_cmd (sys_executable w1) smoke_args) x)
      as (Hs & _).
    rewrite Hs. by repeat split.
Qed.

Lemma dispatch_events_calls patterns self_runner n w :
  exists evs w' t,
    dispatch_events (on_modified patterns self_runner) n w = (Return evs, w')
    /\ trace w' = (trace w ++ t)%list
    /\ Forall (starts_call (pytest_call self_runner smoke_args None w)) t
    /\ same_surroundings w w'.
Proof.
  revert w. induction n as [|n IH]; intros w; simpl.
  { exists [], w, []. rewrite app_nil_r.
    split; [done|]. split; [done|]. split; [constructor|apply same_surroundings_refl]. }
  destruct (queue w) as [|e q] eqn:Hq.
  { exists [], w, []. rewrite app_nil_r.
    split; [done|]. split; [done|]. split; [constructor|apply same_surroundings_refl]. }
  pose proof (on_modified_trace patterns self_runner e (set_queue q w)) as Ht.
  pose proof (on_modified_surroundings patterns self_runner e (set_queue q w)) as Hs.
  change (trace (set_queue q w)) with (trace w) in Ht.
  change (pytest_call self_runner smoke_args None (set_queue q w))
    with (pytest_call self_runner smoke_args None w) in Ht.
  assert (Hs' : forall w1, same_surroundings (set_queue q w) w1 -> same_surroundings w w1)
    by (intros w1 H; exact H).
  assert (Hnew : exists t1,
            trace (snd (on_modified patterns self_runner e (set_queue q w)))
              = (trace w ++ t1)%list
            /\ Forall (starts_call (pytest_call self_runner smoke_args None w)) t1).
  { destruct (triggers patterns e).
    - eexists. split; [exact Ht|]. repeat constructor.
    - exists []. rewrite app_nil_r. split; [exact Ht|constructor]. }
  clear Ht. destruct Hnew as (t1 & Ht1 & Hf1).
  destruct (on_modified patterns self_runner e (set_queue q w)) as [[[]|x] w1];
    cbn [snd] in Ht1, Hs.
  - destruct (IH w1) as (evs & w2 & t2 & Hd & Ht2 & Hf2 & Hs2).
    rewrite Hd. exists (e :: evs), w2, (t1 ++ t2)%list.
    split; [reflexivity|].
    split; [by rewrite Ht2, Ht1, <- app_assoc|].
    split.
    + apply Forall_app. split; [exact Hf1|].
      by rewrite <- (pytest_call_surroundings _ _ _ w w1 (Hs' _ Hs)).
    + exact (same_surroundings_trans _ _ _ (Hs' _ Hs) Hs2).
  - exists [e], w1, t1. split; [reflexivity|]. split; [exact Ht1|].
    split; [exact Hf1|exact (Hs' _ Hs)].
Qed.

(** X4.  Without the watchdog package [watch_and_run] gives up at once: it
    prints the installation hint and returns, having handled no event,
    started no run and left the pending events where they were. *)
Theorem watch_without_watchdog self patterns n w :
  watchdog_installed w = false ->
  exists w',
    watch_and_run self patterns n w = (Return [], w')
    /\ console w'
       = (console w ++
          ["watchdog package required for file watching. Install with: pip install watchdog"])%list
    /\ trace w' = trace w
    /\ queue w' = queue w
    /\ files w' = files w.
Proof.
  intros Hi. unfold watch_and_run, mbind, M_bind, bind, gets, print, modify.
  rewrite Hi. cbn [negb]. eexists. split; [reflexivity|]. by repeat split.
Qed.

Lemma watch_without_watchdog_witness :
  let w := World "/usr/bin/python3" ambient "/repo"
             (fun _ _ => ProcRun (Completed 0 "" "") []) [] [] ∅ (fun _ => true)
             false [FsEvent "tests/test_a.py" false] in
  watchdog_installed w = false
  /\ exists w',
       watch_and_run the_watcher None 10 w = (Return [], w')
       /\ trace w' = []
       /\ queue w' = [FsEvent "tests/test_a.py" false].
Proof.
  cbv zeta. split; [reflexivity|].
  destruct (watch_without_watchdog the_watcher None 10
              (World "/usr/bin/python3" ambient "/repo"
                 (fun _ _ => ProcRun (Completed 0 "" "") []) [] [] ∅ (fun _ => true)
                 false [FsEvent "tests/test_a.py" false]) eq_refl)
    as (w' & H1 & _ & H2 & H3 & _).
  exists w'. split; [exact H1|]. split; [exact H2|exact H3].
Defined.

(** X5.  A watcher made by [ContinuousTestRunner(test_dir)] watches
    [test_dir] but runs the tests elsewhere: its runner is a
    [TestRunner()] without base directory, so every run of the session is
    the smoke profile command, started in the current working directory
    with the ambient environment, whatever directory is watched and
    whatever patterns are given. *)
Theorem watch_session_runs_smoke_in_cwd dir patterns n w :
  watchdog_installed w = true ->
  exists self evs w' t,
    ContinuousTestRunner_init dir w = (Return self, w)
    /\ test_dir self = dir
    /\ watch_and_run self patterns n w = (Return evs, w')
    /\ trace w' = (trace w ++ t)%list
    /\ Forall (starts_call
                 (ProcCall [sys_executable w; "-m"; "pytest"; "-m"; "smoke"; "-v"]
                    (getcwd w) (environ w))) t.
Proof.
  intros Hi.
  exists (mkContinuousTestRunner dir (mkTestRunner (getcwd w) ∅)).
  unfold watch_and_run, mbind, M_bind, bind, gets, print, modify.
  rewrite Hi. cbn [negb runner].
  set (w1 := set_console _ w).
  destruct (dispatch_events_calls (patterns_or_default patterns)
              (mkTestRunner (getcwd w) ∅) n w1)
    as (evs & w2 & t & Hd & Ht & Hf & _).
  rewrite Hd. eexists evs, _, t.
  split; [reflexivity|]. split; [reflexivity|]. split; [reflexivity|].
  split; [exact Ht|exact Hf].
Qed.

Lemma watch_session_runs_smoke_in_cwd_witness :
  watchdog_installed world_two_changes_in_flight = true
  /\ exists self evs w' t,
       ContinuousTestRunner_init "tests" world_two_changes_in_flight
         = (Return self, world_two_changes_in_flight)
       /\ watch_and_run self (Some ["*.py"]) 10 world_two_changes_in_flight
          = (Return evs, w')
       /\ trace w' = t
       /\ Forall (starts_call
                    (ProcCall ["/usr/bin/python3"; "-m"; "pytest"; "-m"; "smoke"; "-v"]
                       "/repo" ambient)) t.
Proof.
  split; [reflexivity|].
  destruct (watch_session_runs_smoke_in_cwd "tests" (Some ["*.py"]) 10
              world_two_changes_in_flight eq_refl)
    as (self & evs & w' & t & H1 & _ & H2 & H3 & H4).
  exists self, evs, w', t. split; [exact H1|]. split; [exact H2|].
  split; [exact H3|exact H4].
Defined.

(** X6.  A pattern made of stars only (["*"], the empty pattern) leaves
    the empty suffix, and every path ends with it: with such a pattern
    among the patterns every modification of a file triggers a run, and
    only directories are left out. *)
Theorem star_pattern_matches_every_file patterns event p :
  In p patterns ->
  remove_stars p = "" ->
  triggers patterns event = negb (is_directory event).
Proof.
  intros Hin Hp. unfold triggers, any.
  assert (H : existsb (fun p => endswith (src_path event) (remove_stars p)) patterns
              = true).
  { apply existsb_exists. exists p. split; [done|].
    rewrite Hp. apply endswith_spec. exists (src_path event).
    by rewrite append_nil_r. }
  rewrite H. by destruct (is_directory event).
Qed.

Lemma star_pattern_matches_every_file_witness :
  In "*" ["*.py"; "*"]
  /\ remove_stars "*" = ""
  /\ triggers ["*.py"; "*"] (FsEvent "tests/notes.txt" false) = negb false.
Proof.
  split; [right; left; reflexivity|]. split; [reflexivity|].
  apply (star_pattern_matches_every_file ["*.py"; "*"]
           (FsEvent "tests/notes.txt" false) "*"); [right; left; reflexivity|reflexivity].
Defined.

(** ** Further properties of the report and of the script *)

Lemma bind_return {A B} (m : M A) (k : A -> M B) w a w' :
  m w = (Return a, w') -> bind m k w = k a w'.
Proof. unfold bind. by intros ->. Qed.

Lemma bind_ext {A B} (m : M A) (k1 k2 : A -> M B) w :
  (forall a w', k1 a w' = k2 a w') -> bind m k1 w = bind m k2 w.
Proof. intros H. unfold bind. destruct (m w) as [[a|e] w']; [apply H|done]. Qed.

Lemma bind_raise {A B} (m : M A) (k : A -> M B) w e w' :
  m w = (Raise e, w') -> bind m k w = (Raise e, w').
Proof. unfold bind. by intros ->. Qed.



(** X8.  Writing a report touches one file and prints one line: the file
    named is created or overwritten with the document, every other file
    stays as it was, no process is started, and writing the same report
    again changes no file. *)
Theorem report_writes_one_file results output_file w :
  writable w output_file = true ->
  exists w',
    create_test_report results output_file w = (Return tt, w')
    /\ files w' = <[output_file := report_of results]> (files w)
    /\ (forall other, other <> output_file -> files w' !! other = files w !! other)
    /\ trace w' = trace w
    /\ console w' = (console w ++ [("Test report saved to: " ++ output_file)%string])%list
    /\ files (snd (create_test_report results output_file w')) = files w'.
Proof.
  intros Hw. rewrite (create_test_report_eq _ _ _ Hw).
  eexists. split; [reflexivity|]. cbn [files trace console set_console set_files].
  split; [reflexivity|].
  split; [intros other Ho; by apply lookup_insert_ne|].
  split; [reflexivity|]. split; [reflexivity|].
  rewrite create_test_report_eq by exact Hw.
  cbn [snd files set_console set_files]. apply insert_insert_eq.
Qed.

Lemma report_writes_one_file_witness :
  writable world_pass "test-report.html" = true
  /\ exists w',
       create_test_report result_plain "test-report.html" world_pass = (Return tt, w')
       /\ files w' !! "test-report.html" = Some (report_of result_plain)
       /\ files w' !! "other.html" = None
       /\ trace w' = [].
Proof.
  split; [reflexivity|].
  destruct (report_writes_one_file result_plain "test-report.html" world_pass eq_refl)
    as (w' & H1 & H2 & H3 & H4 & _).
  exists w'. split; [exact H1|]. split.
  - rewrite H2. apply lookup_insert_eq.
  - split; [|exact H4]. rewrite (H3 "other.html"); [reflexivity|discriminate].
Defined.

Lemma create_test_report_fails results output_file w :
  writable w output_file = false ->
  exists e,
    create_test_report results output_file w = (Raise e, w)
    /\ is_Exception e = true.
Proof.
  intros Hw. unfold create_test_report, mbind, M_bind.
  rewrite (bind_return _ _ _ _ _ (html_content_eq results w)).
  unfold bind, write_file. rewrite Hw. by eexists.
Qed.

(** X9.  When the report file cannot be opened for writing,
    [create_test_report] does not handle the error: the exception reaches
    the caller, nothing is written and the "saved" line is not printed. *)
Theorem report_write_failure_propagates results output_file w :
  writable w output_file = false ->
  exists e,
    create_test_report results output_file w = (Raise e, w)
    /\ is_Exception e = true.
Proof.
  apply create_test_report_fails.
Qed.

Lemma report_write_failure_propagates_witness :
  let w := World "/usr/bin/python3" ambient "/repo"
             (fun _ _ => ProcRun (Completed 0 "" "") []) [] [] ∅
             (fun _ => false) true [] in
  writable w "/readonly/report.html" = false
  /\ exists e,
       create_test_report result_plain "/readonly/report.html" w = (Raise e, w)
       /\ is_Exception e = true.
Proof.
  cbv zeta. split; [reflexivity|].
  apply (report_write_failure_propagates result_plain "/readonly/report.html"
           (World "/usr/bin/python3" ambient "/repo"
              (fun _ _ => ProcRun (Completed 0 "" "") []) [] [] ∅
              (fun _ => false) true [])).
  reflexivity.
Defined.

Lemma main_first_half w :
  let r := mkTestRunner (getcwd w) ∅ in
  let o := pytest_outcome r smoke_args None w in
  let w1 := set_console (console w ++ ["Running smoke tests..."]) w in
  caught o = true ->
  main w =
    bind (create_test_report (result_of (pytest_cmd (sys_executable w) smoke_args) o)
            "smoke-test-report.html")
      (fun _ =>
         if passed o then
           bind (print "Running full test suite...")
             (fun _ =>
                bind (run_with_coverage r 80)
                  (fun full_results =>
                     create_test_report full_results "full-test-report.html"))
         else ret tt)
      (after_pytest r smoke_args None w1).
Proof.
  intros r o w1 Hc. unfold main, mbind, M_bind.
  rewrite (bind_return _ _ w (mkTestRunner (getcwd w) ∅) w) by reflexivity.
  rewrite (bind_return _ _ w tt w1) by reflexivity.
  unfold run_smoke_tests. fold smoke_args. fold r.
  assert (Hc1 : caught (pytest_outcome r smoke_args None w1) = true) by exact Hc.
  rewrite (bind_return _ _ _ _ _ (_run_pytest_caught _ _ _ _ Hc1)).
  change (pytest_outcome r smoke_args None w1) with o.
  change (sys_executable w1) with (sys_executable w).
  apply bind_ext. intros [] w2.
  unfold bind at 1. unfold getitem. rewrite result_of_success.
  unfold mret, M_ret, passed. reflexivity.
Qed.

(** X10.  The script runs the full suite only after a passing smoke run.
    When the smoke run does not exit with code 0 (or cannot be started),
    the script ends normally after one process: it has written the smoke
    report and nothing else, and the coverage suite is not run. *)
Theorem main_stops_after_failed_smoke w :
  let r := mkTestRunner (getcwd w) ∅ in
  let o := pytest_outcome r smoke_args None w in
  caught o = true ->
  passed o = false ->
  writable w "smoke-test-report.html" = true ->
  exists w',
    main w = (Return tt, w')
    /\ trace w'
       = (trace w ++ [ProcStart (pytest_call r smoke_args None w); ProcExit o])%list
    /\ files w'
       = <["smoke-test-report.html"
             := report_of (result_of (pytest_cmd (sys_executable w) smoke_args) o)]>
           (files w)
    /\ console w'
       = (console w ++ ["Running smoke tests..."]
                    ++ ["Test report saved to: smoke-test-report.html"])%list.
Proof.
  intros r o Hc Hp Hw. rewrite (main_first_half w Hc). fold r o. rewrite Hp.
  set (w1 := set_console _ w).
  assert (Hw2 : writable (after_pytest r smoke_args None w1) "smoke-test-report.html"
                = true) by exact Hw.
  rewrite (bind_return _ _ _ _ _ (create_test_report_eq _ _ _ Hw2)).
  eexists. split; [reflexivity|].
  cbn [trace files console set_console set_files].
  split; [reflexivity|]. split; [reflexivity|].
  cbn. by rewrite <- app_assoc.
Qed.

Lemma main_stops_after_failed_smoke_witness :
  caught (pytest_outcome (mkTestRunner (getcwd world_exit2) ∅) smoke_args None world_exit2)
    = true
  /\ passed (pytest_outcome (mkTestRunner (getcwd world_exit2) ∅) smoke_args None
               world_exit2) = false
  /\ writable world_exit2 "smoke-test-report.html" = true
  /\ exists w',
       main world_exit2 = (Return tt, w')
       /\ started (trace w') = 1%nat
       /\ files w' !! "full-test-report.html" = None
       /\ console w'
          = ["Running smoke tests..."; "Test report saved to: smoke-test-report.html"].
Proof.
  split; [reflexivity|]. split; [reflexivity|]. split; [reflexivity|].
  destruct (main_stops_after_failed_smoke world_exit2 eq_refl eq_refl eq_refl)
    as (w' & H1 & H2 & H3 & H4).
  exists w'. split; [exact H1|]. split; [by rewrite H2|]. split.
  - rewrite H3. by rewrite lookup_insert_ne.
  - exact H4.
Defined.



(** X12.  The script does not guard the writing of the smoke report: when
    that file cannot be opened, the exception ends the script after the
    smoke run, so the coverage suite is not run even if the smoke run
    passed, and no file is written. *)
Theorem main_aborts_when_report_cannot_be_written w :
  let r := mkTestRunner (getcwd w) ∅ in
  caught (pytest_outcome r smoke_args None w) = true ->
  writable w "smoke-test-report.html" = false ->
  exists e w',
    main w = (Raise e, w')
    /\ is_Exception e = true
    /\ started (trace w') = S (started (trace w))
    /\ files w' = files w.
Proof.
  intros r Hc Hw. rewrite (main_first_half w Hc). fold r.
  set (w1 := set_console _ w).
  assert (Hw2 : writable (after_pytest r smoke_args None w1) "smoke-test-report.html"
                = false) by exact Hw.
  destruct (create_test_report_fails
              (result_of (pytest_cmd (sys_executable w) smoke_args)
                 (pytest_outcome r smoke_args None w))
              "smoke-test-report.html" _ Hw2)
    as (e & He1 & He2).
  rewrite (bind_raise _ _ _ _ _ He1).
  exists e, (after_pytest r smoke_args None w1).
  split; [reflexivity|]. split; [exact He2|].
  split; [|reflexivity].
  rewrite trace_after_pytest, started_app.
  change (started [ProcStart _; ProcExit _]) with 1%nat.
  change (trace w1) with (trace w). lia.
Qed.

Lemma main_aborts_when_report_cannot_be_written_witness :
  let w := World "/usr/bin/python3" ambient "/repo"
             (fun _ _ => ProcRun (Completed 0 "1 passed" "") []) [] [] ∅
             (fun _ => false) true [] in
  caught (pytest_outcome (mkTestRunner (getcwd w) ∅) smoke_args None w) = true
  /\ passed (pytest_outcome (mkTestRunner (getcwd w) ∅) smoke_args None w) = true
  /\ writable w "smoke-test-report.html" = false
  /\ exists e w',
       main w = (Raise e, w')
       /\ is_Exception e = true
       /\ started (trace w') = 1%nat
       /\ files w' = ∅.
Proof.
  cbv zeta. split; [reflexivity|]. split; [reflexivity|]. split; [reflexivity|].
  apply (main_aborts_when_report_cannot_be_written
           (World "/usr/bin/python3" ambient "/repo"
              (fun _ _ => ProcRun (Completed 0 "1 passed" "") []) [] [] ∅
              (fun _ => false) true []));
    reflexivity.
Defined.

(** * Properties of the API test helper *)

Import Helpers.

Lemma sent_after_send evs r : sent (evs ++ [Sent r]) = S (sent evs).
Proof. unfold sent. rewrite List.filter_app, length_app. simpl. lia. Qed.


Lemma sent_app_events evs1 evs2 : sent (evs1 ++ evs2) = (sent evs1 + sent evs2)%nat.
Proof. unfold sent. by rewrite List.filter_app, length_app. Qed.

Lemma retry_loop_cons config r attempt rest response s :
  retry_loop config r (attempt :: rest) response s =
    match serve s (sent (events s)) r with
    | Responded resp =>
        if status resp <? 500
        then (Return resp, mkNet (serve s) (events s ++ [Sent r]))
        else retry_loop config r rest (Some resp)
               (mkNet (serve s) (events s ++ [Sent r]))
    | RequestFailed e =>
        if is_Exception e then
          if attempt =? retry_count config - 1
          then (Raise e, mkNet (serve s) (events s ++ [Sent r]))
          else retry_loop config r rest response
                 (mkNet (serve s) ((events s ++ [Sent r]) ++ [Slept (attempt + 1)]))
        else (Raise e, mkNet (serve s) (events s ++ [Sent r]))
    end.
Proof.
  cbn [retry_loop]. unfold send, sleep. cbn [serve events].
  by destruct (serve s (sent (events s)) r).
Qed.

(** What every run of the loop does to the network, whatever the answers. *)
Lemma retry_loop_events config r len :
  forall a response s,
    Z.of_nat (a + len) = retry_count config ->
    exists t,
      events (snd (retry_loop config r (List.map Z.of_nat (seq a len)) response s))
        = (events s ++ t)%list
      /\ serve (snd (retry_loop config r (List.map Z.of_nat (seq a len)) response s))
         = serve s
      /\ (sent t <= len)%nat
      /\ match len with
         | O => t = []
         | S _ => exists t0, t = (t0 ++ [Sent r])%list
         end.
Proof.
  induction len as [|len IH]; intros a response s Hn.
  - exists []. simpl. rewrite app_nil_r.
    destruct response; simpl; (split; [done|]); (split; [done|]);
      (split; [unfold sent; simpl; lia|done]).
  - cbn [seq List.map]. rewrite retry_loop_cons.
    assert (Hstop : exists t,
              (events s ++ [Sent r])%list = (events s ++ t)%list
              /\ serve s = serve s
              /\ (sent t <= S len)%nat
              /\ exists t0, t = (t0 ++ [Sent r])%list).
    { exists [Sent r]. split; [done|]. split; [done|].
      split; [unfold sent; simpl; lia|]. by exists []. }
    assert (Hgo : forall response' t',
              (sent t' = 1)%nat ->
              (len = O -> exists t0, t' = (t0 ++ [Sent r])%list) ->
              exists t,
                events (snd (retry_loop config r (List.map Z.of_nat (seq (S a) len))
                               response' (mkNet (serve s) (events s ++ t'))))
                  = (events s ++ t)%list
                /\ serve (snd (retry_loop config r (List.map Z.of_nat (seq (S a) len))
                                 response' (mkNet (serve s) (events s ++ t'))))
                   = serve s
                /\ (sent t <= S len)%nat
                /\ exists t0, t = (t0 ++ [Sent r])%list).
    { intros response' t' Ht' Hlast.
      destruct (IH (S a) response' (mkNet (serve s) (events s ++ t')))
        as (t & He & Hs & Hc & Hl).
      { cbn [retry_count]. rewrite <- Hn. f_equal. lia. }
      cbn [events serve] in He, Hs.
      exists (t' ++ t)%list.
      split; [by rewrite He, <- app_assoc|]. split; [exact Hs|].
      split; [rewrite sent_app_events; lia|].
      destruct len as [|len'].
      - subst t. rewrite app_nil_r. by apply Hlast.
      - destruct Hl as (t0 & ->). exists (t' ++ t0)%list. by rewrite <- app_assoc. }
    destruct (serve s (sent (events s)) r) as [resp|e].
    + destruct (status resp <? 500); [exact Hstop|].
      apply Hgo; [reflexivity|]. intros _. by exists [].
    + destruct (is_Exception e); [|exact Hstop].
      destruct (Z.eqb_spec (Z.of_nat a) (retry_count config - 1)) as [Heq|Hne];
        [exact Hstop|].
      rewrite <- app_assoc. apply Hgo; [reflexivity|].
      intros ->. exfalso. apply Hne. rewrite <- Hn. lia.
Qed.

(** X13.  The retry loop is bounded and ends on a request: whatever the
    server answers, [make_request_with_retry] sends at most [retry_count]
    requests, at least one when [retry_count] is positive, and the last
    thing it does is a request, never a sleep. *)
Theorem retry_sends_at_most_retry_count config method url kwargs s :
  let s' := snd (make_request_with_retry config method url kwargs s) in
  exists t,
    events s' = (events s ++ t)%list
    /\ serve s' = serve s
    /\ (Z.of_nat (sent t) <= Z.max 0 (retry_count config))
    /\ (0 < retry_count config ->
        exists t0, t = (t0 ++ [Sent (mkRequest (lower method) url kwargs)])%list).
Proof.
  cbv zeta. unfold make_request_with_retry, range.
  destruct (Z_lt_le_dec 0 (retry_count config)) as [Hpos|Hneg].
  - destruct (retry_loop_events config (mkRequest (lower method) url kwargs)
                (Z.to_nat (retry_count config)) 0%nat None s)
      as (t & He & Hs & Hc & Hl); [simpl; lia|].
    exists t. split; [exact He|]. split; [exact Hs|]. split; [lia|].
    intros _. destruct (Z.to_nat (retry_count config)) eqn:En; [lia|exact Hl].
  - replace (Z.to_nat (retry_count config)) with 0%nat by lia.
    exists []. simpl. rewrite app_nil_r.
    split; [done|]. split; [done|]. split; [unfold sent; simpl; lia|lia].
Qed.

Lemma retry_sends_at_most_retry_count_witness :
  0 < retry_count (mkAPIConfig 3 default_headers)
  /\ exists t t0,
       events (snd (make_request_with_retry (mkAPIConfig 3 default_headers)
                      "GET" "/posts/1" [] net_flaky)) = t
       /\ (Z.of_nat (sent t) <= 3)
       /\ t = (t0 ++ [Sent (mkRequest "get" "/posts/1" [])])%list.
Proof.
  split; [reflexivity|].
  destruct (retry_sends_at_most_retry_count (mkAPIConfig 3 default_headers)
              "GET" "/posts/1" [] net_flaky) as (t & He & _ & Hc & Hl).
  destruct (Hl eq_refl) as (t0 & Ht0).
  exists t, t0. split; [exact He|]. split; [exact Hc|exact Ht0].
Defined.

(** X14.  With a [retry_count] of zero or less the loop body never runs,
    and the final [return response] reads a variable that was never
    bound: the call raises without sending any request. *)
Theorem retry_without_attempts_raises config method url kwargs s :
  retry_count config <= 0 ->
  make_request_with_retry config method url kwargs s = (Raise UnboundLocalError, s).
Proof.
  intros Hn. unfold make_request_with_retry, range.
  by replace (Z.to_nat (retry_count config)) with 0%nat by lia.
Qed.

Lemma retry_without_attempts_raises_witness :
  retry_count (mkAPIConfig 0 default_headers) <= 0
  /\ make_request_with_retry (mkAPIConfig 0 default_headers) "GET" "/posts/1" []
       (net_always (Responded (mkResponse 200 JSONDecodeError "ok")))
     = (Raise UnboundLocalError,
        net_always (Responded (mkResponse 200 JSONDecodeError "ok"))).
Proof.
  split; [discriminate|].
  apply (retry_without_attempts_raises (mkAPIConfig 0 default_headers)).
  discriminate.
Defined.




Lemma retry_loop_server_errors config r len :
  forall a response s,
    (forall i, (i < len)%nat ->
       exists resp, serve s (sent (events s) + i) r = Responded resp
                    /\ 500 <= status resp) ->
    exists response',
      retry_loop config r (List.map Z.of_nat (seq a len)) response s
      = retry_loop config r [] response'
          (mkNet (serve s) (events s ++ repeat (Sent r) len))
      /\ match len with
         | O => response' = response
         | S n => exists resp, response' = Some resp
                    /\ serve s (sent (events s) + n) r = Responded resp
         end.
Proof.
  induction len as [|len IH]; intros a response s Hall.
  - exists response. simpl. rewrite app_nil_r. by destruct s.
  - cbn [seq List.map]. rewrite retry_loop_cons.
    destruct (Hall 0%nat ltac:(lia)) as (resp0 & H0 & Hst0).
    rewrite Nat.add_0_r in H0. rewrite H0.
    assert (Hge : (status resp0 <? 500) = false) by (apply Z.ltb_ge; lia).
    rewrite Hge.
    destruct (IH (S a) (Some resp0) (mkNet (serve s) (events s ++ [Sent r])))
      as (response' & Hl & Hlast); cbn [serve events].
    { intros i Hi. rewrite sent_after_send.
      replace (S (sent (events s)) + i)%nat with (sent (events s) + S i)%nat by lia.
      apply Hall. lia. }
    cbn [serve events] in Hl, Hlast. exists response'. split.
    + rewrite Hl. by rewrite <- app_assoc.
    + destruct len as [|n].
      * exists resp0. by rewrite Nat.add_0_r.
      * destruct Hlast as (resp & -> & Hresp). exists resp. split; [done|].
        rewrite sent_after_send in Hresp.
        by replace (sent (events s) + S n)%nat with (S (sent (events s)) + n)%nat by lia.
Qed.

(** X16.  Server errors are retried without any delay.  When every one of
    the [retry_count] attempts is answered with a status of 500 or more,
    the requests are sent back to back (the sleep belongs to the exception
    handler only), and the response of the last attempt is returned to the
    caller as a normal result. *)
Theorem retry_on_server_errors_never_sleeps config method url kwargs s :
  let r := mkRequest (lower method) url kwargs in
  let n := Z.to_nat (retry_count config) in
  0 < retry_count config ->
  (forall i, (i < n)%nat ->
     exists resp, serve s (sent (events s) + i) r = Responded resp
                  /\ 500 <= status resp) ->
  exists resp,
    make_request_with_retry config method url kwargs s
    = (Return resp, mkNet (serve s) (events s ++ repeat (Sent r) n))
    /\ serve s (sent (events s) + (n - 1)) r = Responded resp
    /\ 500 <= status resp.
Proof.
  intros r n Hpos Hall. unfold make_request_with_retry, range. fold r n.
  destruct (retry_loop_server_errors config r n 0 None s Hall) as (response' & Hl & Hlast).
  destruct n as [|m] eqn:En; [lia|].
  destruct Hlast as (resp & -> & Hresp). exists resp.
  split; [by rewrite Hl|].
  replace (S m - 1)%nat with m by lia. split; [exact Hresp|].
  destruct (Hall m ltac:(lia)) as (resp' & Hresp' & Hst).
  rewrite Hresp in Hresp'. by injection Hresp' as ->.
Qed.

Lemma retry_on_server_errors_never_sleeps_witness :
  let unavailable := mkResponse 503 JSONDecodeError "Service Unavailable" in
  let r := mkRequest "get" "/posts/1" [] in
  0 < retry_count (mkAPIConfig 3 default_headers)
  /\ (forall i, (i < 3)%nat ->
        exists resp,
          serve (net_always (Responded unavailable))
            (sent (events (net_always (Responded unavailable))) + i) r = Responded resp
          /\ 500 <= status resp)
  /\ make_request_with_retry (mkAPIConfig 3 default_headers) "GET" "/posts/1" []
       (net_always (Responded unavailable))
     = (Return unavailable,
        mkNet (fun _ _ => Responded unavailable) [Sent r; Sent r; Sent r]).
Proof.
  cbv zeta.
  assert (Hall : forall i, (i < 3)%nat ->
            exists resp,
              serve (net_always (Responded (mkResponse 503 JSONDecodeError
                                              "Service Unavailable")))
                (sent (events (net_always (Responded (mkResponse 503 JSONDecodeError
                                                        "Service Unavailable")))) + i)
                (mkRequest "get" "/posts/1" []) = Responded resp
              /\ 500 <= status resp).
  { intros i _. eexists. split; [reflexivity|]. simpl. lia. }
  split; [reflexivity|]. split; [exact Hall|].
  destruct (retry_on_server_errors_never_sleeps (mkAPIConfig 3 default_headers)
              "GET" "/posts/1" []
              (net_always (Responded (mkResponse 503 JSONDecodeError
                                        "Service Unavailable")))
              eq_refl Hall) as (resp & H1 & H2 & _).
  rewrite H1. simpl in H2. injection H2 as <-. reflexivity.
Defined.




(** ** Schema validation *)

Lemma check_fields_dict entries expected_fields :
  check_fields (JDict entries) expected_fields
  = Return (forallb (fun field => existsb (fun kv => String.eqb (fst kv) field) entries)
              expected_fields).
Proof.
  induction expected_fields as [|field rest IH]; [reflexivity|].
  cbn [check_fields field_in forallb].
  destruct (existsb _ entries); [exact IH|reflexivity].
Qed.

Lemma has_key_spec entries field :
  existsb (fun kv : string * json => String.eqb (fst kv) field) entries = true
  <-> exists v, In (field, v) entries.
Proof.
  rewrite existsb_exists. split.
  - intros ([k v] & Hin & Hk). apply String.eqb_eq in Hk. simpl in Hk. subst k.
    by exists v.
  - intros (v & Hin). exists (field, v). split; [done|]. apply String.eqb_refl.
Qed.

(** X18.  Objects and lists of objects.  A body that decodes to an object
    is valid exactly when every expected field is one of its keys.  A body
    that decodes to a non-empty list is judged by its first element alone:
    a list whose first element is an object is valid exactly when that
    object has every expected field, whatever the other elements are. *)
Theorem schema_checks_first_object response entries others expected_fields :
  json_of response = Decoded (JDict entries)
  \/ json_of response = Decoded (JList (JDict entries :: others)) ->
  exists b,
    validate_response_schema response expected_fields = Return b
    /\ (b = true <->
        forall field, In field expected_fields -> exists v, In (field, v) entries).
Proof.
  intros Hbody.
  assert (Hv : validate_response_schema response expected_fields
               = check_fields (JDict entries) expected_fields).
  { unfold validate_response_schema.
    destruct Hbody as [-> | ->]; cbv zeta; by rewrite check_fields_dict. }
  rewrite Hv, check_fields_dict. eexists. split; [reflexivity|].
  rewrite forallb_forall. split.
  - intros H field Hin. apply has_key_spec. by apply H.
  - intros H field Hin. apply has_key_spec. by apply H.
Qed.

Lemma schema_checks_first_object_witness :
  let complete := JDict [("id", JNum 1); ("title", JStr "a")] in
  let broken := JDict [("error", JStr "gone")] in
  let response := mkResponse 200 (Decoded (JList [complete; broken; JNull])) "" in
  (json_of response = Decoded (JDict [("id", JNum 1); ("title", JStr "a")])
   \/ json_of response
      = Decoded (JList (JDict [("id", JNum 1); ("title", JStr "a")] :: [broken; JNull])))
  /\ validate_response_schema response ["id"; "title"] = Return true.
Proof.
  cbv zeta. split; [by right|].
  destruct (schema_checks_first_object
              (mkResponse 200
                 (Decoded (JList [JDict [("id", JNum 1); ("title", JStr "a")];
                                  JDict [("error", JStr "gone")]; JNull])) "")
              [("id", JNum 1); ("title", JStr "a")]
              [JDict [("error", JStr "gone")]; JNull]
              ["id"; "title"]) as (b & Hb & Hiff); [by right|].
  rewrite Hb. f_equal. apply Hiff.
  intros field [<- | [<- | []]].
  - exists (JNum 1). by left.
  - exists (JStr "a"). right. by left.
Defined.

(** X19.  Bodies that are no objects.  When the body decodes to a number,
    a boolean or null, asking for any field raises: the membership test
    fails with a [TypeError], which is not among the exceptions the helper
    catches, so the caller gets an exception instead of [False]; with no
    expected fields the same body is valid.  An empty list is valid only
    when no field is expected, and a body that is not JSON is never
    valid. *)
Theorem schema_of_scalar_body_raises response expected_fields :
  (forall data,
     json_of response = Decoded data ->
     scalar data = true ->
     validate_response_schema response expected_fields
     = match expected_fields with
       | [] => Return true
       | _ :: _ => Raise not_iterable
       end)
  /\ (json_of response = Decoded (JList []) ->
      validate_response_schema response expected_fields
      = Return match expected_fields with [] => true | _ :: _ => false end)
  /\ (json_of response = JSONDecodeError ->
      validate_response_schema response expected_fields = Return false).
Proof.
  unfold validate_response_schema. split; [|split].
  - intros data -> Hs. destruct data; try discriminate Hs;
      by destruct expected_fields.
  - intros ->. by destruct expected_fields.
  - by intros ->.
Qed.

Lemma schema_of_scalar_body_raises_witness :
  (json_of (mkResponse 200 (Decoded (JNum 42)) "42") = Decoded (JNum 42)
   /\ scalar (JNum 42) = true
   /\ validate_response_schema (mkResponse 200 (Decoded (JNum 42)) "42") ["id"]
      = Raise not_iterable)
  /\ (json_of (mkResponse 200 (Decoded (JList [])) "[]") = Decoded (JList [])
      /\ validate_response_schema (mkResponse 200 (Decoded (JList [])) "[]") ["id"]
         = Return false)
  /\ (json_of (mkResponse 502 JSONDecodeError "Bad Gateway") = JSONDecodeError
      /\ validate_response_schema (mkResponse 502 JSONDecodeError "Bad Gateway") ["id"]
         = Return false).
Proof.
  split; [|split].
  - split; [reflexivity|]. split; [reflexivity|].
    apply (proj1 (schema_of_scalar_body_raises
                    (mkResponse 200 (Decoded (JNum 42)) "42") ["id"]) (JNum 42));
      reflexivity.
  - split; [reflexivity|].
    apply (proj1 (proj2 (schema_of_scalar_body_raises
                           (mkResponse 200 (Decoded (JList [])) "[]") ["id"]))).
    reflexivity.
  - split; [reflexivity|].
    apply (proj2 (proj2 (schema_of_scalar_body_raises
                           (mkResponse 502 JSONDecodeError "Bad Gateway") ["id"]))).
    reflexivity.
Defined.

(** ** Substring tests *)

Lemma strip_prefix_spec (p s rest : string) :
  strip_prefix p s = Some rest <-> s = p ++ rest.
Proof.
  revert s. induction p as [|a p IH]; intros s; simpl.
  - split; [by intros [= ->] | by intros ->].
  - destruct s as [|b s]; [split; discriminate|].
    destruct (Ascii.eqb_spec a b) as [<- | Hne].
    + rewrite IH. split; [by intros -> | by intros [= ->]].
    + split; [discriminate | intros [= <- _]; done].
Qed.

Lemma split_at_first_sound (needle s before after : string) :
  split_at_first needle s = Some (before, after) ->
  s = before ++ needle ++ after.
Proof.
  revert before. induction s as [|c s IH]; intros before;
    rewrite split_at_first_unfold.
  - destruct (strip_prefix needle "") as [rest|] eqn:Hp; [|discriminate].
    intros [= <- <-]. apply strip_prefix_spec in Hp. exact Hp.
  - destruct (strip_prefix needle (String c s)) as [rest|] eqn:Hp.
    + intros [= <- <-]. apply strip_prefix_spec in Hp. exact Hp.
    + destruct (split_at_first needle s) as [[b a]|]; [|discriminate].
      intros [= <- <-]. simpl. f_equal. by apply IH.
Qed.

Lemma split_at_first_complete (needle before after : string) :
  exists b a, split_at_first needle (before ++ needle ++ after) = Some (b, a).
Proof.
  induction before as [|c before IH]; rewrite split_at_first_unfold.
  - simpl. destruct (strip_prefix needle (needle ++ after)) as [rest|] eqn:Hp.
    + by eexists _, _.
    + assert (H : strip_prefix needle (needle ++ after) = Some after)
        by (by apply strip_prefix_spec).
      congruence.
  - destruct (strip_prefix needle (String c before ++ needle ++ after)) as [rest|].
    + by eexists _, _.
    + simpl. destruct IH as (b & a & ->). by eexists _, _.
Qed.

Lemma contains_spec (s needle : string) :
  contains s needle = true <-> exists before after, s = before ++ needle ++ after.
Proof.
  unfold contains. split.
  - destruct (split_at_first needle s) as [[b a]|] eqn:Hs; [|discriminate].
    intros _. exists b, a. by apply split_at_first_sound.
  - intros (b & a & ->).
    by destruct (split_at_first_complete needle b a) as (b' & a' & ->).
Qed.

Lemma check_fields_string s expected_fields :
  check_fields (JStr s) expected_fields
  = Return (forallb (contains s) expected_fields).
Proof.
  induction expected_fields as [|field rest IH]; [reflexivity|].
  cbn [check_fields field_in forallb].
  destruct (contains s field); [exact IH|reflexivity].
Qed.

(** X20.  A body that decodes to a string is searched, not rejected: it is
    valid exactly when every expected field name occurs somewhere in the
    text of the string. *)
Theorem schema_of_string_body_is_substring_search response s expected_fields :
  json_of response = Decoded (JStr s) ->
  exists b,
    validate_response_schema response expected_fields = Return b
    /\ (b = true <->
        forall field, In field expected_fields ->
          exists before after, s = before ++ field ++ after).
Proof.
  intros Hbody. unfold validate_response_schema. rewrite Hbody. cbv zeta.
  rewrite check_fields_string. eexists. split; [reflexivity|].
  rewrite forallb_forall. split.
  - intros H field Hin. apply contains_spec. by apply H.
  - intros H field Hin. apply contains_spec. by apply H.
Qed.

Lemma schema_of_string_body_is_substring_search_witness :
  json_of (mkResponse 200 (Decoded (JStr "invalid id")) "") = Decoded (JStr "invalid id")
  /\ validate_response_schema (mkResponse 200 (Decoded (JStr "invalid id")) "") ["id"]
     = Return true.
Proof.
  split; [reflexivity|].
  destruct (schema_of_string_body_is_substring_search
              (mkResponse 200 (Decoded (JStr "invalid id")) "") "invalid id" ["id"]
              eq_refl) as (b & Hb & Hiff).
  rewrite Hb. f_equal. apply Hiff. intros field [<- | []].
  by exists "invalid ", "".
Defined.

(** ** Markers and the CI variable *)

(** X21.  Markers go by substring, and [api] wins.  Collection keeps the
    items, their order and their paths, and puts at most one marker on
    each: [api] when the path contains the text api anywhere, otherwise
    [ui] when it contains the text ui anywhere, otherwise nothing.  So an
    item whose path contains both is marked [api] only. *)
Theorem markers_follow_path_substrings items :
  let items' := Conftest.pytest_collection_modifyitems items in
  List.map Conftest.fspath items' = List.map Conftest.fspath items
  /\ Forall2
       (fun it it' =>
          let has text := exists before after,
                            Conftest.fspath it = before ++ text ++ after in
          (has "api" -> Conftest.markers it' = (Conftest.markers it ++ ["api"])%list)
          /\ (~ has "api" -> has "ui" ->
              Conftest.markers it' = (Conftest.markers it ++ ["ui"])%list)
          /\ (~ has "api" -> ~ has "ui" -> it' = it))
       items items'.
Proof.
  cbv zeta. unfold Conftest.pytest_collection_modifyitems. split.
  - rewrite List.map_map. apply List.map_ext. intros it.
    by destruct (contains (Conftest.fspath it) "api"),
                (contains (Conftest.fspath it) "ui").
  - induction items as [|it items IH]; [constructor|].
    cbn [List.map]. constructor; [|exact IH].
    destruct (contains (Conftest.fspath it) "api") eqn:Ha.
    + apply contains_spec in Ha. split; [done|]. split; intros Hn; by destruct Hn.
    + assert (Hna : ~ exists before after,
                      Conftest.fspath it = before ++ "api" ++ after).
      { intros H. apply contains_spec in H. congruence. }
      split; [intros H; by destruct Hna|].
      destruct (contains (Conftest.fspath it) "ui") eqn:Hu.
      * split; [done|]. intros _ Hnu. exfalso. apply Hnu. by apply contains_spec.
      * split; [|done]. intros _ H. apply contains_spec in H. congruence.
Qed.

Lemma markers_follow_path_substrings_witness :
  Conftest.pytest_collection_modifyitems
    [Conftest.mkItem "tests/ui/test_rapid_checkout.py" [];
     Conftest.mkItem "tests/ui/test_login.py" ["smoke"];
     Conftest.mkItem "tests/integration/test_demo.py" []]
  = [Conftest.mkItem "tests/ui/test_rapid_checkout.py" ["api"];
     Conftest.mkItem "tests/ui/test_login.py" ["smoke"; "ui"];
     Conftest.mkItem "tests/integration/test_demo.py" []]
  /\ List.map Conftest.fspath
       (Conftest.pytest_collection_modifyitems
          [Conftest.mkItem "tests/ui/test_rapid_checkout.py" []])
     = ["tests/ui/test_rapid_checkout.py"].
Proof.
  split; [reflexivity|].
  apply (proj1 (markers_follow_path_substrings
                  [Conftest.mkItem "tests/ui/test_rapid_checkout.py" []])).
Defined.

(** X22.  Any non-empty value of [CI] counts.  The browser is started with
    the five sandbox and security flags exactly when the variable [CI] is
    set to a non-empty string, whatever the string says (also for
    [CI=false] or [CI=0]), and [EnvironmentConfig.is_ci] agrees with that;
    with [CI] unset or empty there are no extra arguments. *)
Theorem ci_is_any_non_empty_value environ :
  (Config.is_ci environ = true <-> exists v, environ !! "CI" = Some v /\ v <> "")
  /\ Config._get_browser_args environ
     = (if Config.is_ci environ
        then ["--no-sandbox"; "--disable-dev-shm-usage"; "--disable-gpu";
              "--disable-web-security"; "--allow-running-insecure-content"]
        else [])
  /\ (forall v, v <> "" ->
        In "--no-sandbox" (Config._get_browser_args (<["CI" := v]> environ)))
  /\ Config._get_browser_args (delete "CI" environ) = []
  /\ Config._get_browser_args (<["CI" := ""]> environ) = [].
Proof.
  unfold Config.is_ci, Config._get_browser_args, Config.getenv, Config.env_truthy.
  split; [|split; [|split; [|split]]].
  - destruct (environ !! "CI") as [v|].
    + rewrite truthy_str. split; [intros H; by exists v | by intros (v' & [= <-] & H)].
    + split; [discriminate | by intros (v & H & _)].
  - by destruct (environ !! "CI") as [v|]; [destruct (truthy (VStr v))|].
  - intros v Hv. rewrite lookup_insert_eq.
    apply truthy_str in Hv. rewrite Hv. by left.
  - by rewrite lookup_delete_eq.
  - by rewrite lookup_insert_eq.
Qed.

Lemma ci_is_any_non_empty_value_witness :
  "false" <> ""
  /\ In "--no-sandbox" (Config._get_browser_args (<["CI" := "false"]> ambient))
  /\ Config.is_ci (<["CI" := "false"]> ambient) = true.
Proof.
  destruct (ci_is_any_non_empty_value (<["CI" := "false"]> ambient))
    as (Hci & _).
  destruct (ci_is_any_non_empty_value ambient) as (_ & _ & Hin & _).
  split; [discriminate|]. split.
  - apply Hin. discriminate.
  - apply Hci. exists "false". split; [apply lookup_insert_eq|discriminate].
Defined.

(** * Properties of the sequential measurement *)

Section Measurement.

Variable F : Type.
Variable fsub : F -> F -> F.
Variable fsum : list F -> F.
Variable fdiv : F -> nat -> F.
Variable fmin : list F -> F.
Variable fmax : list F -> F.

Let loop := Performance.sequential_loop F fsub.
Let measure := Performance._measure_sequential_requests F fsub fsum fdiv fmin fmax.

Lemma sequential_loop_counts (n : nat) :
  forall times errors (s : Performance.lab F),
    (forall i e, Performance.call F s i = Some e -> is_Exception e = true) ->
    exists times' errors' s',
      loop n times errors s = (Return (times', errors'), s')
      /\ Z.of_nat (length times') + errors'
         = Z.of_nat (length times) + errors + Z.of_nat n
      /\ errors <= errors'
      /\ (length times <= length times')%nat
      /\ Performance.calls F s' = (Performance.calls F s + n)%nat
      /\ Performance.call F s' = Performance.call F s
      /\ ((forall i, Performance.call F s i <> None) -> times' = times).
Proof.
  induction n as [|n IH]; intros times errors s Hexn.
  - exists times, errors, s. split; [reflexivity|].
    split; [lia|]. split; [lia|]. split; [lia|]. split; [lia|]. by split.
  - unfold loop. cbn [Performance.sequential_loop].
    unfold Performance.time_time, Performance.request_func.
    cbn [Performance.call Performance.calls Performance.clock Performance.readings].
    destruct (Performance.call F s (Performance.calls F s)) as [e|] eqn:Hc.
    + rewrite (Hexn _ _ Hc).
      destruct (IH times (errors + 1)
                  (Performance.mkLab F (Performance.clock F s) (Performance.call F s)
                     (S (Performance.readings F s)) (S (Performance.calls F s))))
        as (times' & errors' & s' & Hl & Hsum & He & Ht & Hcalls & Hcall & Hall);
        [exact Hexn|].
      exists times', errors', s'. split; [exact Hl|].
      cbn [Performance.calls Performance.call] in Hcalls, Hcall, Hall.
      split; [lia|]. split; [lia|]. split; [lia|]. split; [lia|].
      split; [exact Hcall|exact Hall].
    + destruct (IH (times ++ [fsub (Performance.clock F s (S (Performance.readings F s)))
                                (Performance.clock F s (Performance.readings F s))])%list
                  errors
                  (Performance.mkLab F (Performance.clock F s) (Performance.call F s)
                     (S (S (Performance.readings F s))) (S (Performance.calls F s))))
        as (times' & errors' & s' & Hl & Hsum & He & Ht & Hcalls & Hcall & Hall);
        [exact Hexn|].
      exists times', errors', s'. split; [exact Hl|].
      cbn [Performance.calls Performance.call] in Hcalls, Hcall, Hall.
      rewrite length_app in Hsum, Ht. cbn [length] in Hsum, Ht.
      split; [lia|]. split; [lia|]. split; [lia|]. split; [lia|].
      split; [exact Hcall|]. intros Hnone. by destruct (Hnone (Performance.calls F s)).
Qed.

(** X23.  The counts of a measurement add up.  For a non-negative
    [count], and a measured function that raises nothing beyond
    [Exception], the helper calls the function exactly [count] times and
    returns a result in which [successful_requests] is the number of
    recorded response times, [successful_requests + error_count] is
    [total_requests], which is [count], and neither count is
    negative. *)
Theorem sequential_measurement_counts_add_up (count : Z) (s : Performance.lab F) :
  0 <= count ->
  (forall i e, Performance.call F s i = Some e -> is_Exception e = true) ->
  exists m s',
    measure count s = (Return m, s')
    /\ Performance.total_requests F m = count
    /\ Performance.successful_requests F m + Performance.error_count F m = count
    /\ Performance.successful_requests F m
       = Z.of_nat (length (Performance.response_times F m))
    /\ 0 <= Performance.error_count F m <= count
    /\ Performance.calls F s' = (Performance.calls F s + Z.to_nat count)%nat.
Proof.
  intros Hcount Hexn. unfold measure, Performance._measure_sequential_requests.
  destruct (sequential_loop_counts (Z.to_nat count) [] 0 s Hexn)
    as (times & errors & s' & Hl & Hsum & He & _ & Hcalls & _).
  unfold loop in Hl. rewrite Hl. eexists _, s'. split; [reflexivity|].
  cbn [Performance.total_requests Performance.successful_requests
       Performance.error_count Performance.response_times length] in *.
  split; [reflexivity|]. split; [lia|]. split; [lia|]. split; [lia|exact Hcalls].
Qed.

(** X24.  Nothing to average.  When every call of the measured function
    fails, no response time is recorded, and the average, the minimum and
    the maximum are the integer 0 rather than a division by zero or a
    [min] of an empty list; all [count] calls are counted as errors. *)
Theorem sequential_measurement_of_failures (count : Z) (s : Performance.lab F) :
  0 <= count ->
  (forall i, exists e, Performance.call F s i = Some e /\ is_Exception e = true) ->
  exists s',
    measure count s
    = (Return (Performance.mkMeasurements F count 0 count
                 Performance.IntZero Performance.IntZero Performance.IntZero []),
       s').
Proof.
  intros Hcount Hall. unfold measure, Performance._measure_sequential_requests.
  destruct (sequential_loop_counts (Z.to_nat count) [] 0 s)
    as (times & errors & s' & Hl & Hsum & He & _ & _ & _ & Hnone).
  { intros i e Hi. destruct (Hall i) as (e' & He' & Hexn). congruence. }
  assert (Ht : times = []).
  { apply Hnone. intros i Hi. destruct (Hall i) as (e' & He' & _). congruence. }
  subst times. cbn [length] in Hsum.
  assert (He' : errors = count) by lia. subst errors.
  unfold loop in Hl. rewrite Hl. exists s'.
  by replace (count - count) with 0 by lia.
Qed.

(** X25.  A negative [count] is not rejected: the function is not called
    and the result reports [count] itself as total and as successful
    requests, a negative number of successes next to an empty list of
    response times. *)
Theorem sequential_measurement_of_negative_count (count : Z) (s : Performance.lab F) :
  count < 0 ->
  measure count s
  = (Return (Performance.mkMeasurements F count count 0
               Performance.IntZero Performance.IntZero Performance.IntZero []),
     s).
Proof.
  intros Hneg. unfold measure, Performance._measure_sequential_requests.
  replace (Z.to_nat count) with 0%nat by lia.
  cbn [Performance.sequential_loop]. by replace (count - 0) with count by lia.
Qed.

End Measurement.

Lemma sequential_measurement_counts_add_up_witness :
  0 <= 4
  /\ (forall i e,
        Performance.call Z Performance.lab_every_second_fails i = Some e ->
        is_Exception e = true)
  /\ exists m s',
       Performance._measure_sequential_requests Z Z.sub (fold_right Z.add 0)
         (fun x n => x / Z.of_nat n) (fold_right Z.min 0) (fold_right Z.max 0)
         4 Performance.lab_every_second_fails = (Return m, s')
       /\ Performance.successful_requests Z m + Performance.error_count Z m = 4
       /\ Performance.successful_requests Z m
          = Z.of_nat (length (Performance.response_times Z m)).
Proof.
  assert (Hexn : forall i e,
            Performance.call Z Performance.lab_every_second_fails i = Some e ->
            is_Exception e = true).
  { intros i e. simpl. destruct (Nat.even i); [discriminate|]. by intros [= <-]. }
  split; [discriminate|]. split; [exact Hexn|].
  destruct (sequential_measurement_counts_add_up Z Z.sub (fold_right Z.add 0)
              (fun x n => x / Z.of_nat n) (fold_right Z.min 0) (fold_right Z.max 0)
              4 Performance.lab_every_second_fails ltac:(discriminate) Hexn)
    as (m & s' & H1 & _ & H2 & H3 & _).
  exists m, s'. split; [exact H1|]. split; [exact H2|exact H3].
Defined.

Lemma sequential_measurement_of_failures_witness :
  let broken := Performance.mkLab Z (fun n => Z.of_nat n)
                  (fun _ => Some (OtherException "connection refused")) 0 0 in
  0 <= 3
  /\ (forall i, exists e,
        Performance.call Z broken i = Some e /\ is_Exception e = true)
  /\ exists s',
       Performance._measure_sequential_requests Z Z.sub (fold_right Z.add 0)
         (fun x n => x / Z.of_nat n) (fold_right Z.min 0) (fold_right Z.max 0)
         3 broken
       = (Return (Performance.mkMeasurements Z 3 0 3
                    Performance.IntZero Performance.IntZero Performance.IntZero []),
          s').
Proof.
  cbv zeta.
  assert (Hall : forall i, exists e,
            Performance.call Z
              (Performance.mkLab Z (fun n => Z.of_nat n)
                 (fun _ => Some (OtherException "connection refused")) 0 0) i = Some e
            /\ is_Exception e = true).
  { intros i. eexists. split; reflexivity. }
  split; [discriminate|]. split; [exact Hall|].
  apply (sequential_measurement_of_failures Z Z.sub (fold_right Z.add 0)
           (fun x n => x / Z.of_nat n) (fold_right Z.min 0) (fold_right Z.max 0)
           3 _ ltac:(discriminate) Hall).
Defined.

Lemma sequential_measurement_of_negative_count_witness :
  -1 < 0
  /\ Performance._measure_sequential_requests Z Z.sub (fold_right Z.add 0)
       (fun x n => x / Z.of_nat n) (fold_right Z.min 0) (fold_right Z.max 0)
       (-1) Performance.lab_every_second_fails
     = (Return (Performance.mkMeasurements Z (-1) (-1) 0
                  Performance.IntZero Performance.IntZero Performance.IntZero []),
        Performance.lab_every_second_fails).
Proof.
  split; [reflexivity|].
  apply (sequential_measurement_of_negative_count Z Z.sub (fold_right Z.add 0)
           (fun x n => x / Z.of_nat n) (fold_right Z.min 0) (fold_right Z.max 0)
           (-1) Performance.lab_every_second_fails).
  reflexivity.
Defined.
